(** * flask-headless-payments: the webhook reconciliation core

    A shallow embedding of
    - [flask_headless_payments/mixins/subscription.py] (SubscriptionMixin),
    - [flask_headless_payments/mixins/webhook.py] (WebhookEventMixin),
    - [flask_headless_payments/managers/webhook_manager.py] (WebhookManager),
    - the [/webhook] route of [flask_headless_payments/routes/payments.py],
    followed by the properties of the specification that concern them.

    Python objects held by the SQLAlchemy session are rows of two tables;
    a row is addressed by its position.  The code runs in a state-and-error
    monad over the session, the committed tables and a journal of the
    commits and handler calls made.  Calls to [logger] have no effect on
    that state and are left out.

    The code is given twice.  First on a database that accepts every
    commit: what the handlers do to the rows.  Then, in [Db], with the
    database's answers: a commit can be refused, and a session whose flush
    has failed refuses further commits.  Theorem [accepted_run] relates the
    two: on the runs whose commits are accepted they agree. *)

From Stdlib Require Import ZArith Bool List Lia.
From stdpp Require Import gmap strings list fin_maps.

Open Scope string_scope.
Open Scope list_scope.

(* ===================================================================== *)
(** ** Values *)
(* ===================================================================== *)

(** A naive UTC [datetime], as a number of microseconds; [<] on datetimes
    is [<] on these numbers. *)
Definition datetime := Z.

(** The payload fields this core reads ([id], [customer], [subscription])
    hold a string or [None]. *)
Inductive Value :=
| VNone
| VStr (s : string).

(** An event payload, [event['data']['object']]: a dict with string keys. *)
Abbreviation Data := (gmap string Value).

(** The exceptions, all subclasses of [Exception].  An exception is known
    by its class and by the string [str()] makes of it, which it carries;
    for a [KeyError] that string is the [repr] of the key. *)
Inductive exn :=
| KeyError (msg : string)
| ValueError (msg : string)
| SignatureVerificationError (msg : string)
| StripeError (msg : string)
| IntegrityError (msg : string)
| PendingRollbackError (msg : string)
| Exception (msg : string).

(** [str(e)]. *)
Definition str (e : exn) : string :=
  match e with
  | KeyError msg | ValueError msg | SignatureVerificationError msg
  | StripeError msg | IntegrityError msg | PendingRollbackError msg
  | Exception msg => msg
  end.

(** The errors of the database session. *)
Definition is_db_error (e : exn) : bool :=
  match e with
  | IntegrityError _ | PendingRollbackError _ => true
  | _ => false
  end.

(** Truth value of a payload field, as [if subscription_id:] tests it. *)
Definition truthy (v : Value) : bool :=
  match v with
  | VNone => false
  | VStr s => negb (String.eqb s "")
  end.

(** [d.get(key)]. *)
Definition dict_get (key : string) (d : Data) : Value :=
  match d !! key with
  | Some v => v
  | None => VNone
  end.

(* ===================================================================== *)
(** ** SubscriptionMixin *)
(* ===================================================================== *)

(** A user row: the primary key and the fields of the mixin. *)
Record User := mkUser {
  id : Z;
  stripe_customer_id : option string;
  stripe_subscription_id : option string;
  plan_name : option string;
  plan_status : option string;
  current_period_start : option datetime;
  current_period_end : option datetime;
  cancel_at_period_end : option bool;
  trial_start : option datetime;
  trial_end : option datetime;
  subscription_metadata : option string
}.

(** [x in ['active', 'trialing']]. *)
Definition in_active_trialing (s : string) : bool :=
  String.eqb s "active" || String.eqb s "trialing".

(** [not self.plan_status]: unset or the empty string. *)
Definition falsy_str (o : option string) : bool :=
  match o with
  | None => true
  | Some s => String.eqb s ""
  end.

Definition is_subscribed (self : User) : bool :=
  if falsy_str (plan_status self) then false
  else match plan_status self with
       | Some s => in_active_trialing s
       | None => false
       end.

(** [now] is the value [datetime.utcnow()] returns. *)
Definition is_on_trial (now : datetime) (self : User) : bool :=
  match trial_end self with
  | None => false
  | Some te =>
      (now <? te)%Z &&
      match plan_status self with
      | Some s => String.eqb s "trialing"
      | None => false
      end
  end.

Definition has_plan (self : User) (name : string) : bool :=
  if negb (is_subscribed self) then false
  else bool_decide (plan_name self = Some name).

Definition subscription_active (now : datetime) (self : User) : bool :=
  if negb (is_subscribed self) then false
  else match current_period_end self with
       | None => false
       | Some pe => (now <? pe)%Z
       end.

Definition has_any_plan (self : User) (plan_names : list string) : bool :=
  if negb (is_subscribed self) then false
  else match plan_name self with
       | Some p => existsb (String.eqb p) plan_names
       | None => false
       end.

Definition microseconds_per_day : Z := 86400000000.

(** [delta.days] of a [timedelta] of [delta] microseconds: the days of the
    normalised form, whose seconds and microseconds are not negative. *)
Definition timedelta_days (delta : Z) : Z := (delta / microseconds_per_day)%Z.

Definition days_until_renewal (now : datetime) (self : User) : option Z :=
  match current_period_end self with
  | None => None
  | Some pe => Some (Z.max 0 (timedelta_days (pe - now)))
  end.

(** The values of the dictionary [to_subscription_dict] builds. *)
Inductive Json :=
| JNull
| JStr (s : string)
| JBool (b : bool)
| JInt (n : Z).

Definition json_of_str (o : option string) : Json :=
  match o with
  | Some s => JStr s
  | None => JNull
  end.

Definition json_of_bool (o : option bool) : Json :=
  match o with
  | Some b => JBool b
  | None => JNull
  end.

Definition json_of_int (o : option Z) : Json :=
  match o with
  | Some n => JInt n
  | None => JNull
  end.

(** [x.isoformat() if x else None], with [datetime.isoformat] a parameter. *)
Definition json_of_datetime (isoformat : datetime -> string) (o : option datetime)
    : Json :=
  match o with
  | Some t => JStr (isoformat t)
  | None => JNull
  end.

(** [now1] and [now2] are the clock readings of [is_on_trial] and of
    [days_until_renewal]. *)
Definition to_subscription_dict (isoformat : datetime -> string)
    (now1 now2 : datetime) (self : User) : gmap string Json :=
  list_to_map
    [ ("stripe_customer_id", json_of_str (stripe_customer_id self));
      ("stripe_subscription_id", json_of_str (stripe_subscription_id self));
      ("plan_name", json_of_str (plan_name self));
      ("plan_status", json_of_str (plan_status self));
      ("current_period_start", json_of_datetime isoformat (current_period_start self));
      ("current_period_end", json_of_datetime isoformat (current_period_end self));
      ("cancel_at_period_end", json_of_bool (cancel_at_period_end self));
      ("trial_start", json_of_datetime isoformat (trial_start self));
      ("trial_end", json_of_datetime isoformat (trial_end self));
      ("is_subscribed", JBool (is_subscribed self));
      ("is_on_trial", JBool (is_on_trial now1 self));
      ("days_until_renewal", json_of_int (days_until_renewal now2 self)) ].

(* ===================================================================== *)
(** ** WebhookEventMixin *)
(* ===================================================================== *)

(** A webhook-event row.  Its primary key is its position in the table. *)
Record WebhookEvent := mkWebhookEvent {
  stripe_event_id : string;
  event_type : string;
  data : Data;
  processed : option bool;
  processed_at : option datetime;
  error : option string;
  received_at : option datetime
}.

(** Modelled from the spec: the concrete WebhookEvent model class, which is
    not among the sources (only its mixin is).  [process_event] constructs
    it with four keyword arguments; the spec has a new row stored with
    [processed=false], no processed timestamp and no error detail.  The
    spec also has the gateway event id unique: that is a constraint of the
    table, checked when a row is flushed, and is part of [Db.commit]. *)
Definition webhook_event_model
    (stripe_event_id_ event_type_ : string) (data_ : Data)
    (received_at_ : datetime) : WebhookEvent :=
  {| stripe_event_id := stripe_event_id_;
     event_type := event_type_;
     data := data_;
     processed := Some false;
     processed_at := None;
     error := None;
     received_at := Some received_at_ |}.

Definition set_processed (b : bool) (r : WebhookEvent) : WebhookEvent :=
  {| stripe_event_id := stripe_event_id r; event_type := event_type r;
     data := data r; processed := Some b; processed_at := processed_at r;
     error := error r; received_at := received_at r |}.

Definition set_processed_at (t : datetime) (r : WebhookEvent) : WebhookEvent :=
  {| stripe_event_id := stripe_event_id r; event_type := event_type r;
     data := data r; processed := processed r; processed_at := Some t;
     error := error r; received_at := received_at r |}.

Definition set_error (msg : string) (r : WebhookEvent) : WebhookEvent :=
  {| stripe_event_id := stripe_event_id r; event_type := event_type r;
     data := data r; processed := processed r; processed_at := processed_at r;
     error := Some msg; received_at := received_at r |}.

(* ===================================================================== *)
(** ** The database session and the monad *)
(* ===================================================================== *)

(** The two tables, in row order.  The constraints of the schema, the
    uniqueness of the gateway event id among them, are the database's part
    and come with [Db] below. *)
Record Tables := mkTables {
  users : list User;
  webhook_events : list WebhookEvent
}.

(** What the journal records: a commit, with the tables as committed, and a
    call of a handler ([custom = false] for [_handle_default_event]). *)
Inductive Action :=
| Committed (t : Tables)
| Called (custom : bool) (event_type_ : string).

(** [session]: the rows as the session's objects have them;
    [stored]: the rows as last committed. *)
Record World := mkWorld {
  session : Tables;
  stored : Tables;
  journal : list Action
}.

Inductive Result (A : Type) :=
| Ok (a : A)
| Raise (e : exn).
Arguments Ok {A} & a.
Arguments Raise {A} e.

Definition M (A : Type) : Type := World -> Result A * World.

Definition ret {A} (a : A) : M A := fun w => (Ok a, w).

Definition bind {A B} (m : M A) (k : A -> M B) : M B :=
  fun w => match m w with
           | (Ok a, w') => k a w'
           | (Raise e, w') => (Raise e, w')
           end.

Definition raise {A} (e : exn) : M A := fun w => (Raise e, w).

(** [try: body except Exception as e: handler(e)]. *)
Definition try_except {A} (body : M A) (handler : exn -> M A) : M A :=
  fun w => match body w with
           | (Ok a, w') => (Ok a, w')
           | (Raise e, w') => handler e w'
           end.

Declare Scope py_scope.
Delimit Scope py_scope with py.
Notation "x <- m ;; k" := (bind m (fun x => k))
  (at level 100, m at next level, right associativity) : py_scope.
Notation "m ;; k" := (bind m (fun _ => k))
  (at level 100, right associativity) : py_scope.
Open Scope py_scope.

Definition log (a : Action) : M unit :=
  fun w => (Ok tt, {| session := session w; stored := stored w;
                      journal := journal w ++ [a] |}).

(** [db.session.commit()], accepted by the database ([Db.commit] is the
    call that may be refused). *)
Definition commit : M unit :=
  fun w => (Ok tt, {| session := session w; stored := session w;
                      journal := journal w ++ [Committed (session w)] |}).

(** [db.session.add(row)]; the result is the handle of the new row. *)
Definition session_add (row : WebhookEvent) : M nat :=
  fun w => (Ok (length (webhook_events (session w))),
            {| session := {| users := users (session w);
                             webhook_events := webhook_events (session w) ++ [row] |};
               stored := stored w; journal := journal w |}).

(** An attribute assignment on the webhook-event object with handle [k]. *)
Definition update_event (k : nat) (f : WebhookEvent -> WebhookEvent) : M unit :=
  fun w => (Ok tt,
            {| session := {| users := users (session w);
                             webhook_events := alter f k (webhook_events (session w)) |};
               stored := stored w; journal := journal w |}).

(** An attribute assignment on the user object with handle [i]. *)
Definition update_user (i : nat) (f : User -> User) : M unit :=
  fun w => (Ok tt,
            {| session := {| users := alter f i (users (session w));
                             webhook_events := webhook_events (session w) |};
               stored := stored w; journal := journal w |}).

(* ===================================================================== *)
(** ** WebhookManager *)
(* ===================================================================== *)

(** A verified event envelope: [event['id']], [event['type']] and
    [event['data']['object']]. *)
Record Event := mkEvent {
  ev_id : string;
  ev_type : string;
  ev_object : Data
}.

(** What [construct_event] returns, a dict: it is empty, or it is an
    envelope with the keys [process_event] reads.  An empty dict is false
    where the route tests [if not event]. *)
Inductive Verified :=
| EmptyObject
| Envelope (event : Event).

Coercion Envelope : Event >-> Verified.

(** A custom handler is called as [handler(event_data, db, user_model)]: it
    is given the payload and the user model, changes user rows and returns
    or raises.  Its result is the user table it leaves in the session and
    the exception it raised, if any. *)
Definition Handler : Type := Data -> list User -> list User * option exn.

(** Modelled from the spec: [SubscriptionManager.update_user_subscription],
    which is not among the sources.  Given the user id and a subscription
    payload it overwrites that user's subscription fields and persists, or
    raises. *)
Record SubscriptionManager := mkSubscriptionManager {
  update_user_subscription : Z -> Data -> list User -> list User * option exn
}.

(** The [stripe] library, as far as this code calls it. *)
Record Stripe := mkStripe {
  (** [stripe.Webhook.construct_event(payload, sig_header, secret)] *)
  construct_event : string -> option string -> string -> Result Verified;
  (** [stripe.Subscription.retrieve(subscription_id)] *)
  Subscription_retrieve : string -> Result Data
}.

Record WebhookManager := mkWebhookManager {
  subscription_manager : SubscriptionManager;
  event_handlers : gmap string Handler
}.

(** [WebhookManager.__init__]: no handler is registered. *)
Definition init (sm : SubscriptionManager) : WebhookManager :=
  {| subscription_manager := sm; event_handlers := ∅ |}.

Definition register_handler (event_type_ : string) (handler : Handler)
    (self : WebhookManager) : WebhookManager :=
  {| subscription_manager := subscription_manager self;
     event_handlers := <[event_type_ := handler]> (event_handlers self) |}.

(** Run a user-table transformer on the session. *)
Definition on_users (f : list User -> list User * option exn) : M unit :=
  fun w =>
    let (us, r) := f (users (session w)) in
    let w' := {| session := {| users := us;
                               webhook_events := webhook_events (session w) |};
                 stored := stored w; journal := journal w |} in
    match r with
    | None => (Ok tt, w')
    | Some e => (Raise e, w')
    end.

(** The call [self.subscription_manager.update_user_subscription(uid, sub)]. *)
Definition call_update_user_subscription (self : WebhookManager)
    (uid : Z) (sub : Data) : M unit :=
  on_users (update_user_subscription (subscription_manager self) uid sub) ;;
  commit.

(** The filter [stripe_customer_id = customer_id]; [None] selects the rows
    whose column is null. *)
Definition customer_matches (customer_id : Value) (u : User) : bool :=
  match customer_id, stripe_customer_id u with
  | VNone, None => true
  | VStr s, Some c => String.eqb c s
  | _, _ => false
  end.

Fixpoint find_index {A} (p : A -> bool) (l : list A) : option (nat * A) :=
  match l with
  | [] => None
  | x :: l' =>
      if p x then Some (O, x)
      else match find_index p l' with
           | Some (i, y) => Some (S i, y)
           | None => None
           end
  end.

(** [self.user_model.query.filter_by(stripe_customer_id=customer_id).first()]:
    the handle and the row of the first match, or [None]. *)
Definition query_first (customer_id : Value) : M (option (nat * User)) :=
  fun w => (Ok (find_index (customer_matches customer_id) (users (session w))), w).

Definition set_canceled (u : User) : User :=
  {| id := id u;
     stripe_customer_id := stripe_customer_id u;
     stripe_subscription_id := None;
     plan_name := plan_name u;
     plan_status := Some "canceled";
     current_period_start := current_period_start u;
     current_period_end := current_period_end u;
     cancel_at_period_end := cancel_at_period_end u;
     trial_start := trial_start u;
     trial_end := trial_end u;
     subscription_metadata := subscription_metadata u |}.

Section Manager.

Variable stripe : Stripe.

Definition verify_webhook (payload : string) (sig_header : option string)
    (webhook_secret : string) : Result (option Verified) :=
  match construct_event stripe payload sig_header webhook_secret with
  | Ok event => Ok (Some event)
  | Raise (ValueError _) => Ok None
  | Raise (SignatureVerificationError _) => Ok None
  | Raise e => Raise e
  end.

Definition _handle_checkout_completed (self : WebhookManager)
    (session_ : Data) : M unit :=
  let customer_id := dict_get "customer" session_ in
  let subscription_id := dict_get "subscription" session_ in
  match subscription_id with
  | VStr sid =>
      if truthy subscription_id then
        match Subscription_retrieve stripe sid with
        | Raise e => raise e
        | Ok subscription =>
            user <- query_first customer_id ;;
            match user with
            | Some (_, u) => call_update_user_subscription self (id u) subscription
            | None => ret tt
            end
        end
      else ret tt
  | VNone => ret tt
  end.

Definition _handle_subscription_created (self : WebhookManager)
    (subscription : Data) : M unit :=
  let customer_id := dict_get "customer" subscription in
  user <- query_first customer_id ;;
  match user with
  | Some (_, u) => call_update_user_subscription self (id u) subscription
  | None => ret tt
  end.

Definition _handle_subscription_updated (self : WebhookManager)
    (subscription : Data) : M unit :=
  let customer_id := dict_get "customer" subscription in
  user <- query_first customer_id ;;
  match user with
  | Some (_, u) => call_update_user_subscription self (id u) subscription
  | None => ret tt
  end.

Definition _handle_subscription_deleted (self : WebhookManager)
    (subscription : Data) : M unit :=
  let customer_id := dict_get "customer" subscription in
  user <- query_first customer_id ;;
  match user with
  | Some (i, _) => update_user i set_canceled ;; commit
  | None => ret tt
  end.

(** [invoice['id']] raises [KeyError('id')] when the key is absent, and
    [str()] of that is the key in apostrophes; the value is only logged. *)
Definition _handle_invoice_paid (self : WebhookManager) (invoice : Data) : M unit :=
  match invoice !! "id" with
  | Some _ => ret tt
  | None => raise (KeyError "'id'")
  end.

Definition _handle_invoice_failed (self : WebhookManager) (invoice : Data) : M unit :=
  match invoice !! "id" with
  | Some _ => ret tt
  | None => raise (KeyError "'id'")
  end.

Definition _handle_default_event (self : WebhookManager)
    (event_type_ : string) (event_data : Data) : M unit :=
  log (Called false event_type_) ;;
  if String.eqb event_type_ "checkout.session.completed" then
    _handle_checkout_completed self event_data
  else if String.eqb event_type_ "customer.subscription.created" then
    _handle_subscription_created self event_data
  else if String.eqb event_type_ "customer.subscription.updated" then
    _handle_subscription_updated self event_data
  else if String.eqb event_type_ "customer.subscription.deleted" then
    _handle_subscription_deleted self event_data
  else if String.eqb event_type_ "invoice.payment_succeeded" then
    _handle_invoice_paid self event_data
  else if String.eqb event_type_ "invoice.payment_failed" then
    _handle_invoice_failed self event_data
  else ret tt.

(** The call of a registered custom handler. *)
Definition call_custom (handler : Handler) (event_type_ : string)
    (event_data : Data) : M unit :=
  log (Called true event_type_) ;;
  on_users (handler event_data).

(** The body of the [try] of [process_event] up to the handler's return:
    the custom handler when one is registered, the default ones otherwise. *)
Definition dispatch (self : WebhookManager) (event_type_ : string)
    (event_data : Data) : M unit :=
  match event_handlers self !! event_type_ with
  | Some handler => call_custom handler event_type_ event_data
  | None => _handle_default_event self event_type_ event_data
  end.

(** [t_received] and [t_processed] are the values the two calls of
    [datetime.utcnow()] return. *)
Definition process_event (self : WebhookManager) (event : Event)
    (t_received t_processed : datetime) : M bool :=
  let event_type_ := ev_type event in
  let event_data := ev_object event in
  webhook_event <- session_add
    (webhook_event_model (ev_id event) event_type_ event_data t_received) ;;
  commit ;;
  try_except
    (dispatch self event_type_ event_data ;;
     update_event webhook_event (set_processed true) ;;
     update_event webhook_event (set_processed_at t_processed) ;;
     commit ;;
     ret true)
    (fun e =>
       update_event webhook_event (set_error (str e)) ;;
       commit ;;
       ret false).

(* ===================================================================== *)
(** ** The webhook route *)
(* ===================================================================== *)

Record Request := mkRequest {
  request_data : string;
  header_Stripe_Signature : option string
}.

(** [jsonify({key: value}), status]. *)
Record Response := mkResponse {
  body : string * string;
  status : Z
}.

(** [config] holds [STRIPE_WEBHOOK_SECRET], or does not. *)
Definition webhook (webhook_manager : WebhookManager)
    (config_STRIPE_WEBHOOK_SECRET : option string) (request : Request)
    (t_received t_processed : datetime) : M Response :=
  let payload := request_data request in
  let sig_header := header_Stripe_Signature request in
  let webhook_secret := config_STRIPE_WEBHOOK_SECRET in
  if falsy_str webhook_secret then
    ret {| body := ("error", "Webhook not configured"); status := 500 |}
  else
    match webhook_secret with
    | None => ret {| body := ("error", "Webhook not configured"); status := 500 |}
    | Some secret =>
        match verify_webhook payload sig_header secret with
        | Raise e => raise e
        | Ok None | Ok (Some EmptyObject) =>
            ret {| body := ("error", "Invalid signature"); status := 400 |}
        | Ok (Some (Envelope event)) =>
            success <- process_event webhook_manager event t_received t_processed ;;
            if success then ret {| body := ("status", "success"); status := 200 |}
            else ret {| body := ("error", "Failed to process event"); status := 500 |}
        end
    end.

End Manager.

(* ===================================================================== *)
(** ** The database's part *)
(* ===================================================================== *)

(** The definitions above are the code on a database that accepts every
    commit.  [Db] is the same code with the database's answers: a commit
    flushes the session, and the flush is refused when two rows have one
    gateway event id or when another constraint of the schema is violated.
    A session whose flush has failed refuses further work, with a
    [PendingRollbackError], until [rollback()] is called, which this code
    never does; the objects of the session keep the attributes the code
    has assigned to them, and nothing of them reaches the stored tables. *)
Module Db.

(** Modelled from the spec: the schema of the concrete models, which are
    not among the sources.  The gateway event id of a WebhookEvent row is
    unique; [violates] stands for the other constraints (the message of
    the [IntegrityError] a flush of these tables raises, if any). *)
Record Database := mkDatabase {
  unique_violation : string;
  rollback_required : string;
  violates : Tables -> option string
}.

(** [failed]: a flush has failed in this session and no rollback followed. *)
Record State := mkState {
  world : World;
  failed : bool
}.

Definition D (A : Type) : Type := State -> Result A * State.

Definition ret {A} (a : A) : D A := fun st => (Ok a, st).

Definition bind {A B} (m : D A) (k : A -> D B) : D B :=
  fun st => match m st with
            | (Ok a, st') => k a st'
            | (Raise e, st') => (Raise e, st')
            end.

Definition raise {A} (e : exn) : D A := fun st => (Raise e, st).

Definition try_except {A} (body : D A) (handler : exn -> D A) : D A :=
  fun st => match body st with
            | (Ok a, st') => (Ok a, st')
            | (Raise e, st') => handler e st'
            end.

Declare Scope db_scope.
Delimit Scope db_scope with db.
Notation "x <- m ;; k" := (bind m (fun x => k))
  (at level 100, m at next level, right associativity) : db_scope.
Notation "m ;; k" := (bind m (fun _ => k))
  (at level 100, right associativity) : db_scope.
#[local] Open Scope db_scope.

(** An action that does not talk to the database. *)
Definition lift {A} (m : M A) : D A :=
  fun st => let (r, w) := m (world st) in
            (r, {| world := w; failed := failed st |}).

Definition event_ids (t : Tables) : list string :=
  stripe_event_id <$> webhook_events t.

(** The error of a flush of the tables [t], if it is refused. *)
Definition flush_error (db : Database) (t : Tables) : option exn :=
  if bool_decide (NoDup (event_ids t)) then IntegrityError <$> violates db t
  else Some (IntegrityError (unique_violation db)).

Section Session.

Variable db : Database.

(** [db.session.commit()]. *)
Definition commit : D unit :=
  fun st =>
    if failed st then (Raise (PendingRollbackError (rollback_required db)), st)
    else match flush_error db (session (world st)) with
         | Some e => (Raise e, {| world := world st; failed := true |})
         | None =>
             (Ok tt,
              {| world := {| session := session (world st);
                             stored := session (world st);
                             journal := journal (world st)
                                          ++ [Committed (session (world st))] |};
                 failed := false |})
         end.

(** [query.filter_by(stripe_customer_id=customer_id).first()]. *)
Definition query_first (customer_id : Value) : D (option (nat * User)) :=
  fun st =>
    if failed st then (Raise (PendingRollbackError (rollback_required db)), st)
    else (Ok (find_index (customer_matches customer_id)
                         (users (session (world st)))), st).

(** Run a user-table transformer on the session.  A database error it
    raises comes from a flush it made, and leaves the session failed. *)
Definition on_users (f : list User -> list User * option exn) : D unit :=
  fun st =>
    let (us, r) := f (users (session (world st))) in
    let w' := {| session := {| users := us;
                               webhook_events := webhook_events (session (world st)) |};
                 stored := stored (world st); journal := journal (world st) |} in
    match r with
    | None => (Ok tt, {| world := w'; failed := failed st |})
    | Some e => (Raise e, {| world := w'; failed := failed st || is_db_error e |})
    end.

Definition call_update_user_subscription (self : WebhookManager)
    (uid : Z) (sub : Data) : D unit :=
  on_users (update_user_subscription (subscription_manager self) uid sub) ;;
  commit.

Variable stripe : Stripe.

Definition _handle_checkout_completed (self : WebhookManager)
    (session_ : Data) : D unit :=
  let customer_id := dict_get "customer" session_ in
  let subscription_id := dict_get "subscription" session_ in
  match subscription_id with
  | VStr sid =>
      if truthy subscription_id then
        match Subscription_retrieve stripe sid with
        | Raise e => raise e
        | Ok subscription =>
            user <- query_first customer_id ;;
            match user with
            | Some (_, u) => call_update_user_subscription self (id u) subscription
            | None => ret tt
            end
        end
      else ret tt
  | VNone => ret tt
  end.

Definition _handle_subscription_created (self : WebhookManager)
    (subscription : Data) : D unit :=
  let customer_id := dict_get "customer" subscription in
  user <- query_first customer_id ;;
  match user with
  | Some (_, u) => call_update_user_subscription self (id u) subscription
  | None => ret tt
  end.

Definition _handle_subscription_updated (self : WebhookManager)
    (subscription : Data) : D unit :=
  let customer_id := dict_get "customer" subscription in
  user <- query_first customer_id ;;
  match user with
  | Some (_, u) => call_update_user_subscription self (id u) subscription
  | None => ret tt
  end.

Definition _handle_subscription_deleted (self : WebhookManager)
    (subscription : Data) : D unit :=
  let customer_id := dict_get "customer" subscription in
  user <- query_first customer_id ;;
  match user with
  | Some (i, _) => lift (update_user i set_canceled) ;; commit
  | None => ret tt
  end.

Definition _handle_invoice_paid (self : WebhookManager) (invoice : Data) : D unit :=
  match invoice !! "id" with
  | Some _ => ret tt
  | None => raise (KeyError "'id'")
  end.

Definition _handle_invoice_failed (self : WebhookManager) (invoice : Data) : D unit :=
  match invoice !! "id" with
  | Some _ => ret tt
  | None => raise (KeyError "'id'")
  end.

Definition _handle_default_event (self : WebhookManager)
    (event_type_ : string) (event_data : Data) : D unit :=
  lift (log (Called false event_type_)) ;;
  if String.eqb event_type_ "checkout.session.completed" then
    _handle_checkout_completed self event_data
  else if String.eqb event_type_ "customer.subscription.created" then
    _handle_subscription_created self event_data
  else if String.eqb event_type_ "customer.subscription.updated" then
    _handle_subscription_updated self event_data
  else if String.eqb event_type_ "customer.subscription.deleted" then
    _handle_subscription_deleted self event_data
  else if String.eqb event_type_ "invoice.payment_succeeded" then
    _handle_invoice_paid self event_data
  else if String.eqb event_type_ "invoice.payment_failed" then
    _handle_invoice_failed self event_data
  else ret tt.

Definition call_custom (handler : Handler) (event_type_ : string)
    (event_data : Data) : D unit :=
  lift (log (Called true event_type_)) ;;
  on_users (handler event_data).

Definition dispatch (self : WebhookManager) (event_type_ : string)
    (event_data : Data) : D unit :=
  match event_handlers self !! event_type_ with
  | Some handler => call_custom handler event_type_ event_data
  | None => _handle_default_event self event_type_ event_data
  end.

(** The rest of the [try] of [process_event] after the handler has
    returned, on the row [k]. *)
Definition mark_processed (k : nat) (t_processed : datetime) : D bool :=
  lift (update_event k (set_processed true)) ;;
  lift (update_event k (set_processed_at t_processed)) ;;
  commit ;;
  ret true.

(** The [except] clause of [process_event], on the row [k]. *)
Definition mark_failed (k : nat) (e : exn) : D bool :=
  lift (update_event k (set_error (str e))) ;;
  commit ;;
  ret false.

Definition process_event (self : WebhookManager) (event : Event)
    (t_received t_processed : datetime) : D bool :=
  let event_type_ := ev_type event in
  let event_data := ev_object event in
  webhook_event <- lift (session_add
    (webhook_event_model (ev_id event) event_type_ event_data t_received)) ;;
  commit ;;
  try_except
    (dispatch self event_type_ event_data ;;
     lift (update_event webhook_event (set_processed true)) ;;
     lift (update_event webhook_event (set_processed_at t_processed)) ;;
     commit ;;
     ret true)
    (fun e =>
       lift (update_event webhook_event (set_error (str e))) ;;
       commit ;;
       ret false).

End Session.

End Db.

(* ===================================================================== *)
(** ** Vocabulary of the statements *)
(* ===================================================================== *)

(** The webhook-event rows the session holds. *)
Definition events (w : World) : list WebhookEvent := webhook_events (session w).

(** The row [process_event] builds for an event. *)
Definition received_row (event : Event) (t_received : datetime) : WebhookEvent :=
  webhook_event_model (ev_id event) (ev_type event) (ev_object event) t_received.

(** The world in which the [try] of [process_event] starts: the row has
    been added and committed. *)
Definition after_receipt (event : Event) (t_received : datetime) (w : World) : World :=
  snd ((session_add (received_row event t_received) ;; commit) w).

(** The end of the [try] body and the [except] clause, on the row [k]. *)
Definition mark_processed (k : nat) (t_processed : datetime) (w : World) : World :=
  snd ((update_event k (set_processed true) ;;
        update_event k (set_processed_at t_processed) ;;
        commit) w).

Definition mark_failed (k : nat) (e : exn) (w : World) : World :=
  snd ((update_event k (set_error (str e)) ;; commit) w).

(** The row as [process_event] leaves it, by the result of the dispatch. *)
Definition final_row (event : Event) (t_received t_processed : datetime)
    (r : Result unit) : WebhookEvent :=
  match r with
  | Ok _ => set_processed_at t_processed
              (set_processed true (received_row event t_received))
  | Raise e => set_error (str e) (received_row event t_received)
  end.

Definition returned {A} (r : Result A) : bool :=
  match r with
  | Ok _ => true
  | Raise _ => false
  end.

(** The journal entries a run from [w] to [w'] has added. *)
Definition new_entries (w w' : World) : list Action :=
  drop (length (journal w)) (journal w').

(** A commit whose webhook-event table is [evs]. *)
Definition commit_of (evs : list WebhookEvent) (a : Action) : Prop :=
  exists t, a = Committed t /\ webhook_events t = evs.

(** An action that leaves the webhook-event rows alone and journals only
    commits. *)
Definition keeps_events {A} (m : M A) : Prop :=
  forall w,
    events (snd (m w)) = events w /\
    exists extra, journal (snd (m w)) = journal w ++ extra /\
                  Forall (commit_of (events w)) extra.








(** The row of a delivery whose handler raised [e]. *)
Definition failed_row (event : Event) (t_received : datetime) (e : exn)
    : WebhookEvent :=
  set_error (str e) (received_row event t_received).


Definition is_call (a : Action) : bool :=
  match a with
  | Called _ _ => true
  | Committed _ => false
  end.



(** The state in which [process_event] commits the row: the row is in the
    session. *)
Definition received (event : Event) (t_received : datetime) (st : Db.State)
    : Db.State :=
  snd (Db.lift (session_add (received_row event t_received)) st).

(** The [try] and [except] of [Db.process_event], on the row [k]. *)
Definition handled (db : Db.Database) (stripe : Stripe) (self : WebhookManager)
    (event : Event) (k : nat) (t_processed : datetime) : Db.D bool :=
  Db.try_except
    (Db.bind (Db.dispatch db stripe self (ev_type event) (ev_object event))
             (fun _ => Db.mark_processed db k t_processed))
    (Db.mark_failed db k).

(** What a handler does to the webhook-event rows and the journal: the
    session's rows stay; the stored rows stay or become the session's, with
    distinct ids; the journal grows by commits of the session's rows; and a
    handler that returns leaves the session as usable as it found it. *)
Definition keeps_rows {A} (d : Db.D A) : Prop :=
  forall st,
    events (Db.world (snd (d st))) = events (Db.world st) /\
    (webhook_events (stored (Db.world (snd (d st))))
       = webhook_events (stored (Db.world st)) \/
     webhook_events (stored (Db.world (snd (d st)))) = events (Db.world st) /\
     NoDup (stripe_event_id <$> events (Db.world st))) /\
    (exists extra,
       journal (Db.world (snd (d st))) = journal (Db.world st) ++ extra /\
       Forall (commit_of (events (Db.world st))) extra) /\
    (forall a, fst (d st) = Ok a -> Db.failed (snd (d st)) = Db.failed st).

(** The four fields a row has from its receipt on. *)
Definition same_receipt (r1 r2 : WebhookEvent) : Prop :=
  stripe_event_id r1 = stripe_event_id r2 /\
  event_type r1 = event_type r2 /\
  data r1 = data r2 /\
  received_at r1 = received_at r2.

(** The tables with an attribute assignment on the webhook-event row [k]. *)
Definition with_row (k : nat) (f : WebhookEvent -> WebhookEvent) (t : Tables)
    : Tables :=
  {| users := users t; webhook_events := alter f k (webhook_events t) |}.

(** The session's tables as the [try] of [process_event] commits them, and
    as the [except] clause commits them. *)
Definition marked_processed (k : nat) (t_processed : datetime) (t : Tables) : Tables :=
  with_row k (set_processed_at t_processed) (with_row k (set_processed true) t).

Definition marked_failed (k : nat) (e : exn) (t : Tables) : Tables :=
  with_row k (set_error (str e)) t.

(** The state whose session holds the tables [t]. *)
Definition assigned (t : Tables) (st : Db.State) : Db.State :=
  {| Db.world := {| session := t; stored := stored (Db.world st);
                    journal := journal (Db.world st) |};
     Db.failed := Db.failed st |}.

(** The state after an accepted commit. *)
Definition committed (st : Db.State) : Db.State :=
  {| Db.world := {| session := session (Db.world st);
                    stored := session (Db.world st);
                    journal := journal (Db.world st)
                                 ++ [Committed (session (Db.world st))] |};
     Db.failed := false |}.

(** [construct_event] does not return an event envelope: it raises, or it
    returns an empty object. *)
Definition not_accepted (stripe : Stripe) (payload : string)
    (sig_header : option string) (secret : string) : Prop :=
  forall ev : Event, construct_event stripe payload sig_header secret <> Ok ev.

(** The endpoint answers with a client error and leaves the world as it
    was. *)
Definition rejected_with_client_error (stripe : Stripe) (self : WebhookManager)
    (secret : option string) (request : Request)
    (t_received t_processed : datetime) (w : World) : Prop :=
  exists resp,
    webhook stripe self secret request t_received t_processed w = (Ok resp, w) /\
    (400 <= status resp < 500)%Z.

Definition invalid_signature : Response :=
  {| body := ("error", "Invalid signature"); status := 400 |}.

(** A journal entry the database goes along with. *)
Definition accepted_action (db : Db.Database) (a : Action) : Prop :=
  match a with
  | Committed t => Db.flush_error db t = None
  | Called _ _ => True
  end.

(** The state of a usable session on the world [w]. *)
Definition usable (w : World) : Db.State := {| Db.world := w; Db.failed := false |}.

(** [d] is [m] on the runs in which the database accepts every commit and
    no database error is raised. *)
Definition refines (db : Db.Database) {A} (d : Db.D A) (m : M A) : Prop :=
  forall w,
    exists extra,
      journal (snd (m w)) = journal w ++ extra /\
      (Forall (accepted_action db) extra ->
       (forall e, fst (m w) = Raise e -> is_db_error e = false) ->
       d (usable w) = (fst (m w), usable (snd (m w)))).

(* ===================================================================== *)
(** ** Sample data *)
(* ===================================================================== *)

Definition trial_user : User :=
  {| id := 7; stripe_customer_id := Some "cus_1";
     stripe_subscription_id := Some "sub_1"; plan_name := Some "pro";
     plan_status := Some "trialing";
     current_period_start := Some 100%Z; current_period_end := Some 900%Z;
     cancel_at_period_end := Some false;
     trial_start := Some 100%Z; trial_end := Some 500%Z;
     subscription_metadata := None |}.

Definition active_user : User :=
  {| id := 1; stripe_customer_id := Some "cus_2";
     stripe_subscription_id := Some "sub_2"; plan_name := Some "pro";
     plan_status := Some "active";
     current_period_start := Some 100%Z; current_period_end := Some 900%Z;
     cancel_at_period_end := Some false;
     trial_start := Some 10%Z; trial_end := Some 90%Z;
     subscription_metadata := None |}.

(** A subscription manager that stores the payload's status. *)
Definition sample_subscription_manager : SubscriptionManager :=
  {| update_user_subscription := fun uid sub us =>
       (map (fun u =>
               if (id u =? uid)%Z then
                 {| id := id u; stripe_customer_id := stripe_customer_id u;
                    stripe_subscription_id := stripe_subscription_id u;
                    plan_name := plan_name u;
                    plan_status := match dict_get "status" sub with
                                   | VStr st => Some st
                                   | VNone => None
                                   end;
                    current_period_start := current_period_start u;
                    current_period_end := current_period_end u;
                    cancel_at_period_end := cancel_at_period_end u;
                    trial_start := trial_start u; trial_end := trial_end u;
                    subscription_metadata := subscription_metadata u |}
               else u) us, None) |}.

(** A gateway client with an API key the gateway refuses, seeing a payload
    it cannot decode. *)
Definition sample_stripe : Stripe :=
  {| construct_event := fun _ _ _ => Raise (ValueError "Invalid payload");
     Subscription_retrieve := fun _ => Raise (StripeError "Invalid API Key provided") |}.

Definition sample_manager : WebhookManager := init sample_subscription_manager.

Definition sample_world : World :=
  {| session := {| users := [trial_user; active_user]; webhook_events := [] |};
     stored := {| users := [trial_user; active_user]; webhook_events := [] |};
     journal := [] |}.

Definition deleted_event : Event :=
  {| ev_id := "evt_1"; ev_type := "customer.subscription.deleted";
     ev_object := {[ "customer" := VStr "cus_1" ]} |}.


Definition noop_handler : Handler := fun _ us => (us, None).

Definition failing_handler : Handler := fun _ us => (us, Some (Exception "boom")).

Definition custom_manager : WebhookManager :=
  register_handler "customer.subscription.deleted" failing_handler
    (register_handler "customer.subscription.deleted" noop_handler sample_manager).

Definition bad_request : Request :=
  {| request_data := "{not json"; header_Stripe_Signature := Some "t=1,v1=00" |}.

(** A gateway client whose calls succeed. *)
Definition working_stripe : Stripe :=
  {| construct_event := fun _ _ _ => Ok deleted_event;
     Subscription_retrieve := fun sid =>
       Ok (<[ "id" := VStr sid ]> {[ "status" := VStr "active" ]}) |}.



Definition invoice_event : Event :=
  {| ev_id := "evt_7"; ev_type := "invoice.payment_succeeded";
     ev_object := {[ "id" := VStr "in_1" ]} |}.






(** A handler that cancels every user and then raises. *)
Definition half_done_handler : Handler :=
  fun _ us => (map set_canceled us, Some (Exception "mail server down")).

Definition half_done_manager : WebhookManager :=
  register_handler "customer.subscription.deleted" half_done_handler sample_manager.

Definition good_request : Request :=
  {| request_data := "{}"; header_Stripe_Signature := Some "t=1,v1=ab" |}.

(** A database with no constraint besides the unique gateway event id. *)
Definition plain_db : Db.Database :=
  {| Db.unique_violation := "UNIQUE constraint failed: webhook_events.stripe_event_id";
     Db.rollback_required := "This Session's transaction has been rolled back due to a previous exception during flush.";
     Db.violates := fun _ => None |}.

(** A database whose user table declares [stripe_subscription_id] not
    null. *)
Definition not_null_db : Db.Database :=
  {| Db.unique_violation := "UNIQUE constraint failed: webhook_events.stripe_event_id";
     Db.rollback_required := "This Session's transaction has been rolled back due to a previous exception during flush.";
     Db.violates := fun t =>
       if forallb (fun u => bool_decide (is_Some (stripe_subscription_id u))) (users t)
       then None
       else Some "NOT NULL constraint failed: users.stripe_subscription_id" |}.

Definition sample_state : Db.State :=
  {| Db.world := sample_world; Db.failed := false |}.

(** The state after [evt_1] has been delivered once. *)
Definition delivered_state : Db.State :=
  snd (Db.process_event plain_db sample_stripe sample_manager deleted_event
         100%Z 101%Z sample_state).



(** A gateway client given a signed payload that is JSON but not an
    object: the signature verifies, the JSON parses, and building the event
    from the list raises an [AttributeError], which is neither a
    [ValueError] nor a [SignatureVerificationError]. *)
Definition list_payload_stripe : Stripe :=
  {| construct_event := fun _ _ _ =>
       Raise (Exception "'list' object has no attribute 'get'");
     Subscription_retrieve := fun _ => Raise (StripeError "Invalid API Key provided") |}.

Definition list_request : Request :=
  {| request_data := "[1, 2]"; header_Stripe_Signature := Some "t=1,v1=ab" |}.

(* ===================================================================== *)
(** ** Entitlement predicates of the mixin *)
(* ===================================================================== *)

Lemma in_active_trialing_spec (s : string) :
  in_active_trialing s = true <-> s = "active" \/ s = "trialing".
Proof.
  unfold in_active_trialing.
  rewrite orb_true_iff, !String.eqb_eq. tauto.
Qed.

(** C7: [is_subscribed()] is true if and only if [plan_status] is 'active'
    or 'trialing'; for every other status, the unset one included, it is
    false. *)
Theorem is_subscribed_iff (u : User) :
  (is_subscribed u = true <->
     plan_status u = Some "active" \/ plan_status u = Some "trialing") /\
  (plan_status u = None -> is_subscribed u = false) /\
  (forall s, plan_status u = Some s -> s <> "active" -> s <> "trialing" ->
             is_subscribed u = false).
Proof.
  unfold is_subscribed.
  destruct (plan_status u) as [s|] eqn:Hs; cbn.
  - destruct (String.eqb s "") eqn:He.
    + apply String.eqb_eq in He. subst s.
      repeat split; try discriminate; try reflexivity.
      intros [H|H]; discriminate.
    + repeat split.
      * intros H. apply in_active_trialing_spec in H.
        destruct H; subst; auto.
      * intros H. apply in_active_trialing_spec.
        destruct H as [H|H]; injection H; auto.
      * discriminate.
      * intros s' H Ha Ht. injection H as <-.
        destruct (in_active_trialing s) eqn:Hin; [|reflexivity].
        apply in_active_trialing_spec in Hin. tauto.
  - repeat split; try discriminate; try reflexivity.
    intros [H|H]; discriminate.
Qed.

(** C8: for a user with [plan_status] 'trialing', [is_on_trial()] is true
    exactly when the current time is strictly before a set [trial_end], false
    at or after it, and false when [trial_end] is unset. *)
Theorem is_on_trial_trialing (u : User) (now : datetime) :
  plan_status u = Some "trialing" ->
  (forall te, trial_end u = Some te ->
     (is_on_trial now u = true <-> (now < te)%Z) /\
     ((te <= now)%Z -> is_on_trial now u = false)) /\
  (trial_end u = None -> is_on_trial now u = false).
Proof.
  intros Hs. unfold is_on_trial. rewrite Hs. split.
  - intros te ->. cbn. rewrite andb_true_r. split.
    + apply Z.ltb_lt.
    + intros H. apply Z.ltb_ge. exact H.
  - intros ->. reflexivity.
Qed.

Lemma is_on_trial_trialing_witness :
  (is_on_trial 499%Z trial_user = true <-> (499 < 500)%Z) /\
  ((500 <= 500)%Z -> is_on_trial 500%Z trial_user = false).
Proof.
  split.
  - apply (proj1 (is_on_trial_trialing trial_user 499%Z eq_refl) 500%Z eq_refl).
  - apply (proj1 (is_on_trial_trialing trial_user 500%Z eq_refl) 500%Z eq_refl).
Defined.

(* ===================================================================== *)
(** ** The user lookup *)
(* ===================================================================== *)


Lemma find_index_None {A} (p : A -> bool) (l : list A) :
  find_index p l = None <-> (forall x, In x l -> p x = false).
Proof.
  induction l as [|a l IH]; cbn.
  - split; [intros _ x [] | reflexivity].
  - destruct (p a) eqn:Hpa.
    + split; [discriminate|]. intros H. specialize (H a (or_introl eq_refl)).
      congruence.
    + destruct (find_index p l) as [[i y]|].
      * split; [discriminate|]. intros H.
        destruct IH as [_ IH]. discriminate IH.
        intros x Hx. apply H. now right.
      * split; [|reflexivity]. intros _ x [<-|Hx]; [exact Hpa|].
        apply IH; auto.
Qed.

(* ===================================================================== *)
(** ** Frame lemmas of the monad *)
(* ===================================================================== *)

Lemma alter_snoc {A} (f : A -> A) (l : list A) (x : A) :
  alter f (length l) (l ++ [x]) = l ++ [f x].
Proof. induction l as [|a l IH]; cbn; [reflexivity | now rewrite IH]. Qed.

Lemma keeps_ret {A} (a : A) : keeps_events (ret a).
Proof. intros w. split; [reflexivity|]. exists []. now rewrite app_nil_r. Qed.

Lemma keeps_raise {A} (e : exn) : keeps_events (@raise A e).
Proof. intros w. split; [reflexivity|]. exists []. now rewrite app_nil_r. Qed.

Lemma keeps_commit : keeps_events commit.
Proof.
  intros w. split; [reflexivity|]. exists [Committed (session w)].
  split; [reflexivity|]. constructor; [|constructor]. now exists (session w).
Qed.

Lemma keeps_on_users f : keeps_events (on_users f).
Proof.
  intros w. unfold on_users. destruct (f (users (session w))) as [us [e|]];
    (split; [reflexivity|]; exists []; now rewrite app_nil_r).
Qed.

Lemma keeps_update_user i f : keeps_events (update_user i f).
Proof. intros w. split; [reflexivity|]. exists []. now rewrite app_nil_r. Qed.

Lemma keeps_query_first c : keeps_events (query_first c).
Proof. intros w. split; [reflexivity|]. exists []. now rewrite app_nil_r. Qed.

Lemma keeps_bind {A B} (m : M A) (k : A -> M B) :
  keeps_events m -> (forall a, keeps_events (k a)) -> keeps_events (bind m k).
Proof.
  intros Hm Hk w. unfold bind. destruct (Hm w) as (He & ex1 & Hj1 & Hf1).
  destruct (m w) as [[a|e] w1]; cbn in *.
  - destruct (Hk a w1) as (He2 & ex2 & Hj2 & Hf2). split; [congruence|].
    exists (ex1 ++ ex2). split.
    + rewrite Hj2, Hj1. now rewrite app_assoc.
    + apply Forall_app. split; [exact Hf1|]. now rewrite He in Hf2.
  - split; [exact He|]. now exists ex1.
Qed.

Create HintDb keeps.
#[local] Hint Resolve keeps_ret keeps_raise keeps_commit keeps_on_users
  keeps_update_user keeps_query_first : keeps.

Ltac keeps :=
  repeat first
    [ apply keeps_bind; [|intros ?]
    | progress auto with keeps
    | match goal with
      | |- keeps_events (match ?x with _ => _ end) => destruct x
      | |- keeps_events (if ?x then _ else _) => destruct x
      end ].

Lemma keeps_call_update self uid sub :
  keeps_events (call_update_user_subscription self uid sub).
Proof. unfold call_update_user_subscription. keeps. Qed.
#[local] Hint Resolve keeps_call_update : keeps.

Section ManagerFrame.

Variable stripe : Stripe.

Lemma keeps_checkout self d : keeps_events (_handle_checkout_completed stripe self d).
Proof. unfold _handle_checkout_completed. keeps. Qed.

Lemma keeps_created self d : keeps_events (_handle_subscription_created self d).
Proof. unfold _handle_subscription_created. keeps. Qed.

Lemma keeps_updated self d : keeps_events (_handle_subscription_updated self d).
Proof. unfold _handle_subscription_updated. keeps. Qed.

Lemma keeps_deleted self d : keeps_events (_handle_subscription_deleted self d).
Proof. unfold _handle_subscription_deleted. keeps. Qed.

Lemma keeps_invoice_paid self d : keeps_events (_handle_invoice_paid self d).
Proof. unfold _handle_invoice_paid. keeps. Qed.

Lemma keeps_invoice_failed self d : keeps_events (_handle_invoice_failed self d).
Proof. unfold _handle_invoice_failed. keeps. Qed.

(** Whatever is dispatched: the webhook-event rows are as before, and the
    journal has grown by one handler call, of the custom handler exactly
    when one is registered, followed by commits only. *)
Lemma dispatch_frame self ty d w :
  events (snd (dispatch stripe self ty d w)) = events w /\
  exists extra,
    journal (snd (dispatch stripe self ty d w)) =
      journal w ++ Called (bool_decide (is_Some (event_handlers self !! ty))) ty :: extra /\
    Forall (commit_of (events w)) extra.
Proof.
  unfold dispatch. destruct (event_handlers self !! ty) as [h|] eqn:Hh.
  - unfold call_custom, bind, log. cbn.
    destruct (keeps_on_users (h d)
                {| session := session w; stored := stored w;
                   journal := journal w ++ [Called true ty] |})
      as (He & extra & Hj & Hf).
    split; [exact He|]. exists extra. split; [|exact Hf].
    rewrite Hj. cbn. now rewrite <- app_assoc.
  - assert (Hk : keeps_events
      (if String.eqb ty "checkout.session.completed" then
         _handle_checkout_completed stripe self d
       else if String.eqb ty "customer.subscription.created" then
         _handle_subscription_created self d
       else if String.eqb ty "customer.subscription.updated" then
         _handle_subscription_updated self d
       else if String.eqb ty "customer.subscription.deleted" then
         _handle_subscription_deleted self d
       else if String.eqb ty "invoice.payment_succeeded" then
         _handle_invoice_paid self d
       else if String.eqb ty "invoice.payment_failed" then
         _handle_invoice_failed self d
       else ret tt)).
    { repeat match goal with
             | |- keeps_events (if ?x then _ else _) => destruct x
             end;
        auto using keeps_checkout, keeps_created, keeps_updated, keeps_deleted,
          keeps_invoice_paid, keeps_invoice_failed, keeps_ret. }
    unfold _handle_default_event, bind, log. cbn.
    match goal with
    | |- context [ ?m {| session := session w; stored := stored w;
                         journal := journal w ++ [Called false ty] |} ] =>
        destruct (Hk {| session := session w; stored := stored w;
                        journal := journal w ++ [Called false ty] |})
          as (He & extra & Hj & Hf)
    end.
    split; [exact He|]. exists extra. split; [|exact Hf].
    rewrite Hj. cbn. now rewrite <- app_assoc.
Qed.

(** [process_event], step by step. *)
Lemma process_event_eq self ev t1 t2 w :
  process_event stripe self ev t1 t2 w =
  match dispatch stripe self (ev_type ev) (ev_object ev) (after_receipt ev t1 w) with
  | (Ok _, w2) => (Ok true, mark_processed (length (events w)) t2 w2)
  | (Raise e, w2) => (Ok false, mark_failed (length (events w)) e w2)
  end.
Proof.
  unfold process_event, after_receipt, received_row, bind, try_except; cbn.
  match goal with |- context [dispatch _ _ _ _ ?w1] =>
    destruct (dispatch stripe self (ev_type ev) (ev_object ev) w1) as [[[]|e] w2]
  end; reflexivity.
Qed.

End ManagerFrame.

(* ===================================================================== *)
(** ** The rows [process_event] writes *)
(* ===================================================================== *)

Lemma after_receipt_events ev t w :
  events (after_receipt ev t w) = events w ++ [received_row ev t].
Proof. reflexivity. Qed.

Lemma mark_processed_rows l row t w2 :
  events w2 = l ++ [row] ->
  events (mark_processed (length l) t w2) =
    l ++ [set_processed_at t (set_processed true row)] /\
  stored (mark_processed (length l) t w2) = session (mark_processed (length l) t w2) /\
  users (session (mark_processed (length l) t w2)) = users (session w2) /\
  journal (mark_processed (length l) t w2) =
    journal w2 ++ [Committed (session (mark_processed (length l) t w2))].
Proof.
  unfold events. intros H. unfold mark_processed, events, bind; cbn.
  rewrite H, !alter_snoc. auto.
Qed.

Lemma mark_failed_rows l row e w2 :
  events w2 = l ++ [row] ->
  events (mark_failed (length l) e w2) = l ++ [set_error (str e) row] /\
  stored (mark_failed (length l) e w2) = session (mark_failed (length l) e w2) /\
  users (session (mark_failed (length l) e w2)) = users (session w2) /\
  journal (mark_failed (length l) e w2) =
    journal w2 ++ [Committed (session (mark_failed (length l) e w2))].
Proof.
  unfold events. intros H. unfold mark_failed, events, bind; cbn.
  rewrite H, !alter_snoc. auto.
Qed.

(** One delivery, from the world [w]: the dispatch runs on the world with
    the row committed; the final world is the world the dispatch leaves
    with the row marked and committed. *)
Lemma process_event_run stripe self ev t1 t2 w :
  exists r2 w2 extra,
    dispatch stripe self (ev_type ev) (ev_object ev) (after_receipt ev t1 w) = (r2, w2) /\
    events w2 = events w ++ [received_row ev t1] /\
    journal w2 =
      journal w ++ Committed (session (after_receipt ev t1 w))
        :: Called (bool_decide (is_Some (event_handlers self !! ev_type ev))) (ev_type ev)
        :: extra /\
    Forall (commit_of (events w ++ [received_row ev t1])) extra /\
    process_event stripe self ev t1 t2 w =
      match r2 with
      | Ok _ => (Ok true, mark_processed (length (events w)) t2 w2)
      | Raise e => (Ok false, mark_failed (length (events w)) e w2)
      end.
Proof.
  destruct (dispatch_frame stripe self (ev_type ev) (ev_object ev)
              (after_receipt ev t1 w)) as (He & extra & Hj & Hf).
  rewrite process_event_eq.
  destruct (dispatch stripe self (ev_type ev) (ev_object ev) (after_receipt ev t1 w))
    as [r2 w2] eqn:Hd.
  exists r2, w2, extra. cbn in He, Hj.
  split; [reflexivity|]. split; [exact He|].
  split. { rewrite Hj. cbn. now rewrite <- app_assoc. }
  split; [exact Hf|]. destruct r2; reflexivity.
Qed.

(** One delivery, by its result. *)
Lemma process_event_result stripe self ev t1 t2 w :
  exists r2 w2 extra,
    dispatch stripe self (ev_type ev) (ev_object ev) (after_receipt ev t1 w) = (r2, w2) /\
    fst (process_event stripe self ev t1 t2 w) = Ok (returned r2) /\
    events (snd (process_event stripe self ev t1 t2 w))
      = events w ++ [final_row ev t1 t2 r2] /\
    stored (snd (process_event stripe self ev t1 t2 w))
      = session (snd (process_event stripe self ev t1 t2 w)) /\
    users (session (snd (process_event stripe self ev t1 t2 w))) = users (session w2) /\
    journal (snd (process_event stripe self ev t1 t2 w)) =
      journal w ++ Committed (session (after_receipt ev t1 w))
        :: Called (bool_decide (is_Some (event_handlers self !! ev_type ev))) (ev_type ev)
        :: extra ++ [Committed (session (snd (process_event stripe self ev t1 t2 w)))] /\
    Forall (commit_of (events w ++ [received_row ev t1])) extra.
Proof.
  destruct (process_event_run stripe self ev t1 t2 w)
    as (r2 & w2 & extra & Hd & He & Hj & Hf & Hp).
  exists r2, w2, extra. split; [exact Hd|]. rewrite Hp.
  destruct r2 as [[]|e]; cbn [fst snd returned final_row].
  - destruct (mark_processed_rows _ _ t2 _ He) as (Hrows & Hst & Hu & Hjf).
    repeat (split; [first [reflexivity | assumption]|]).
    split; [|exact Hf]. rewrite Hjf, Hj. now rewrite <- app_assoc.
  - destruct (mark_failed_rows _ _ e _ He) as (Hrows & Hst & Hu & Hjf).
    repeat (split; [first [reflexivity | assumption]|]).
    split; [|exact Hf]. rewrite Hjf, Hj. now rewrite <- app_assoc.
Qed.



(* ===================================================================== *)
(** ** The journal *)
(* ===================================================================== *)

Lemma new_entries_app w w' l :
  journal w' = journal w ++ l -> new_entries w w' = l.
Proof. intros H. unfold new_entries. rewrite H. apply drop_app_length. Qed.

(* ===================================================================== *)
(** ** Custom handlers *)
(* ===================================================================== *)



(* ===================================================================== *)
(** ** Deletion events: the user table *)
(* ===================================================================== *)

Lemma final_row_id ev t1 t2 r : stripe_event_id (final_row ev t1 t2 r) = ev_id ev.
Proof. destruct r; reflexivity. Qed.


Example deleted_event_cancels :
  process_event sample_stripe sample_manager deleted_event 100%Z 101%Z sample_world
  = (Ok true,
     let t := {| users := [set_canceled trial_user; active_user];
                 webhook_events :=
                   [{| stripe_event_id := "evt_1";
                       event_type := "customer.subscription.deleted";
                       data := {[ "customer" := VStr "cus_1" ]};
                       processed := Some true; processed_at := Some 101%Z;
                       error := None; received_at := Some 100%Z |}] |} in
     {| session := t; stored := t;
        journal :=
          [Committed {| users := [trial_user; active_user];
                        webhook_events := [received_row deleted_event 100%Z] |};
           Called false "customer.subscription.deleted";
           Committed {| users := [set_canceled trial_user; active_user];
                        webhook_events := [received_row deleted_event 100%Z] |};
           Committed t] |}).
Proof. reflexivity. Qed.

(* ===================================================================== *)
(** ** Events of unknown customers *)
(* ===================================================================== *)









(* ===================================================================== *)
(** ** More on the mixin: plans and renewal *)
(* ===================================================================== *)

Lemma is_on_trial_subscribed now u : is_on_trial now u = true -> is_subscribed u = true.
Proof.
  unfold is_on_trial, is_subscribed.
  destruct (trial_end u); [|discriminate].
  destruct (plan_status u) as [s|]; cbn.
  - rewrite andb_true_iff, String.eqb_eq. intros [_ ->]. reflexivity.
  - rewrite andb_false_r. discriminate.
Qed.

(** X1: whoever is on trial, has an active subscription period, has a plan
    or has one of several plans is subscribed; none of the four holds of a
    user whose [plan_status] is not 'active' or 'trialing'. *)
Theorem entitled_implies_subscribed (u : User) (now : datetime)
    (name : string) (names : list string) :
  is_on_trial now u || subscription_active now u
    || has_plan u name || has_any_plan u names = true ->
  is_subscribed u = true.
Proof.
  rewrite !orb_true_iff. intros [[[H|H]|H]|H].
  - now apply is_on_trial_subscribed with now.
  - unfold subscription_active in H.
    destruct (is_subscribed u); [reflexivity | discriminate].
  - unfold has_plan in H.
    destruct (is_subscribed u); [reflexivity | discriminate].
  - unfold has_any_plan in H.
    destruct (is_subscribed u); [reflexivity | discriminate].
Qed.

Lemma entitled_implies_subscribed_witness : is_subscribed trial_user = true.
Proof.
  apply (entitled_implies_subscribed trial_user 499%Z "pro" ["basic"; "pro"]).
  reflexivity.
Defined.

(** X2: [has_any_plan] holds of a list of names exactly when [has_plan]
    holds of one of its members; of the empty list it never holds. *)
Theorem has_any_plan_iff (u : User) (names : list string) :
  (has_any_plan u names = true <-> exists n, In n names /\ has_plan u n = true) /\
  has_any_plan u [] = false.
Proof.
  split.
  - unfold has_any_plan, has_plan.
    destruct (is_subscribed u); cbn.
    + destruct (plan_name u) as [p|].
      * rewrite existsb_exists. split.
        -- intros (n & Hin & Heq). apply String.eqb_eq in Heq. subst n.
           exists p. split; [exact Hin|]. now apply bool_decide_eq_true.
        -- intros (n & Hin & Heq). apply bool_decide_eq_true in Heq.
           injection Heq as ->. exists n. split; [exact Hin|].
           apply String.eqb_refl.
      * split; [discriminate|]. intros (n & _ & Heq).
        apply bool_decide_eq_true in Heq. discriminate.
    + split; [discriminate|]. intros (n & _ & Heq). discriminate.
  - unfold has_any_plan. destruct (is_subscribed u); cbn; [|reflexivity].
    destruct (plan_name u); reflexivity.
Qed.

(** X3: [days_until_renewal()] is [None] exactly when [current_period_end]
    is unset; otherwise it is a number of days that is never negative, is
    zero when the period ends in less than a day or has ended, and is the
    number of whole days left when the period has not ended. *)
Theorem days_until_renewal_bounds (u : User) (now : datetime) :
  (days_until_renewal now u = None <-> current_period_end u = None) /\
  (forall pe, current_period_end u = Some pe ->
     exists d, days_until_renewal now u = Some d /\
       (0 <= d)%Z /\
       ((pe < now + microseconds_per_day)%Z -> d = 0%Z) /\
       ((now <= pe)%Z ->
          (now + d * microseconds_per_day <= pe
           < now + (d + 1) * microseconds_per_day)%Z)).
Proof.
  unfold days_until_renewal. split.
  - destruct (current_period_end u); split; congruence.
  - intros pe ->. eexists. split; [reflexivity|].
    unfold timedelta_days, microseconds_per_day.
    pose proof (Z.div_mod (pe - now) 86400000000 ltac:(lia)) as Hdm.
    pose proof (Z.mod_pos_bound (pe - now) 86400000000 ltac:(lia)) as Hb.
    split; [lia|]. split; intros H; lia.
Qed.

(* ===================================================================== *)
(** ** The default handlers, event type by event type *)
(* ===================================================================== *)























(* ===================================================================== *)
(** ** Registration *)
(* ===================================================================== *)

(** X11: registering a handler for one event type leaves the processing of
    events of every other type as it was, and handlers registered for
    different types do not depend on the order of registration. *)
Theorem register_handler_other_types (stripe : Stripe) (self : WebhookManager)
    (ty : string) (h : Handler) (ev : Event) (t1 t2 : datetime) (w : World) :
  ev_type ev <> ty ->
  process_event stripe (register_handler ty h self) ev t1 t2 w
    = process_event stripe self ev t1 t2 w /\
  forall h', register_handler ty h (register_handler (ev_type ev) h' self)
             = register_handler (ev_type ev) h' (register_handler ty h self).
Proof.
  intros Hne. split.
  - rewrite !process_event_eq.
    assert (Hd : forall w1,
               dispatch stripe (register_handler ty h self) (ev_type ev) (ev_object ev) w1
               = dispatch stripe self (ev_type ev) (ev_object ev) w1).
    { intros w1. unfold dispatch. cbn [event_handlers register_handler].
      rewrite lookup_insert_ne by congruence.
      destruct (event_handlers self !! ev_type ev); reflexivity. }
    now rewrite Hd.
  - intros h'. unfold register_handler. cbn. f_equal.
    apply insert_insert_ne. congruence.
Qed.

Lemma register_handler_other_types_witness :
  process_event sample_stripe custom_manager invoice_event 100%Z 101%Z sample_world
  = process_event sample_stripe
      (register_handler "customer.subscription.deleted" noop_handler sample_manager)
      invoice_event 100%Z 101%Z sample_world.
Proof.
  apply (register_handler_other_types sample_stripe
           (register_handler "customer.subscription.deleted" noop_handler sample_manager)
           "customer.subscription.deleted" failing_handler invoice_event
           100%Z 101%Z sample_world).
  discriminate.
Defined.

(* ===================================================================== *)
(** ** Deletion events *)
(* ===================================================================== *)







(* ===================================================================== *)
(** ** The endpoint, on deliveries that are accepted *)
(* ===================================================================== *)

(** X17: the endpoint changes the world only through [process_event] on an
    event that [construct_event] returned for the configured, non-empty
    secret; in every other case the world is as before. *)
Theorem world_changes_only_when_verified (stripe : Stripe) (self : WebhookManager)
    (secret : option string) (request : Request) (t1 t2 : datetime) (w : World) :
  snd (webhook stripe self secret request t1 t2 w) <> w ->
  exists s (ev : Event),
    secret = Some s /\ s <> "" /\
    construct_event stripe (request_data request) (header_Stripe_Signature request) s
      = Ok ev /\
    snd (webhook stripe self secret request t1 t2 w)
      = snd (process_event stripe self ev t1 t2 w).
Proof.
  unfold webhook, verify_webhook. intros Hne.
  destruct secret as [s|]; cbn [falsy_str] in *; [|now contradiction Hne].
  destruct (String.eqb s "") eqn:Hs; [now contradiction Hne|].
  destruct (construct_event stripe (request_data request)
              (header_Stripe_Signature request) s) as [[|ev]|e] eqn:Hc.
  - now contradiction Hne.
  - exists s, ev. split; [reflexivity|]. split.
    { intros ->. discriminate. }
    split; [exact Hc|]. unfold bind.
    destruct (process_event stripe self ev t1 t2 w) as [[[]|e] w']; reflexivity.
  - destruct e; now contradiction Hne.
Qed.

Lemma world_changes_only_when_verified_witness :
  exists s (ev : Event),
    Some "whsec_1" = Some s /\ s <> "" /\
    construct_event working_stripe (request_data good_request)
      (header_Stripe_Signature good_request) s = Ok ev /\
    snd (webhook working_stripe sample_manager (Some "whsec_1") good_request
           100%Z 101%Z sample_world)
      = snd (process_event working_stripe sample_manager ev 100%Z 101%Z sample_world).
Proof.
  apply (world_changes_only_when_verified working_stripe sample_manager
           (Some "whsec_1") good_request 100%Z 101%Z sample_world).
  intros H. apply (f_equal journal) in H. vm_compute in H. discriminate.
Defined.

(* ===================================================================== *)
(** ** The subscription dictionary *)
(* ===================================================================== *)

(** X18: the dictionary of [to_subscription_dict] is consistent with
    itself: it reports a trial only together with a subscription, the
    status 'trialing' and a trial end; a subscription only with the status
    'active' or 'trialing'; days until renewal exactly when it reports an
    end of the current period, and never a negative number. *)
Theorem to_subscription_dict_consistent (isoformat : datetime -> string)
    (now1 now2 : datetime) (u : User) :
  let d := to_subscription_dict isoformat now1 now2 u in
  (d !! "is_on_trial" = Some (JBool true) ->
     d !! "is_subscribed" = Some (JBool true) /\
     d !! "plan_status" = Some (JStr "trialing") /\
     d !! "trial_end" <> Some JNull) /\
  (d !! "is_subscribed" = Some (JBool true) ->
     d !! "plan_status" = Some (JStr "active") \/
     d !! "plan_status" = Some (JStr "trialing")) /\
  (d !! "days_until_renewal" = Some JNull <-> d !! "current_period_end" = Some JNull) /\
  (forall n, d !! "days_until_renewal" = Some (JInt n) -> (0 <= n)%Z) /\
  d !! "subscription_metadata" = None.
Proof.
  cbn zeta.
  assert (H1 : to_subscription_dict isoformat now1 now2 u !! "is_on_trial"
               = Some (JBool (is_on_trial now1 u))) by reflexivity.
  assert (H2 : to_subscription_dict isoformat now1 now2 u !! "is_subscribed"
               = Some (JBool (is_subscribed u))) by reflexivity.
  assert (H3 : to_subscription_dict isoformat now1 now2 u !! "plan_status"
               = Some (json_of_str (plan_status u))) by reflexivity.
  assert (H4 : to_subscription_dict isoformat now1 now2 u !! "trial_end"
               = Some (json_of_datetime isoformat (trial_end u))) by reflexivity.
  assert (H5 : to_subscription_dict isoformat now1 now2 u !! "days_until_renewal"
               = Some (json_of_int (days_until_renewal now2 u))) by reflexivity.
  assert (H6 : to_subscription_dict isoformat now1 now2 u !! "current_period_end"
               = Some (json_of_datetime isoformat (current_period_end u))) by reflexivity.
  rewrite H1, H2, H3, H4, H5, H6. clear H1 H2 H3 H4 H5 H6.
  split; [|split; [|split; [|split]]].
  - intros H. injection H as H.
    rewrite (is_on_trial_subscribed now1 u H). split; [reflexivity|].
    unfold is_on_trial in H. destruct (trial_end u); [|discriminate].
    destruct (plan_status u) as [s|]; [|now rewrite andb_false_r in H].
    apply andb_true_iff in H. destruct H as [_ H]. apply String.eqb_eq in H.
    subst s. split; [reflexivity | discriminate].
  - intros H. injection H as H.
    unfold is_subscribed in H. destruct (plan_status u) as [s|]; [|discriminate].
    cbn in H. destruct (String.eqb s ""); [discriminate|].
    apply in_active_trialing_spec in H. destruct H as [-> | ->]; auto.
  - unfold days_until_renewal. destruct (current_period_end u); cbn; split;
      congruence.
  - intros n H. unfold days_until_renewal in H.
    destruct (current_period_end u); cbn in H; [|discriminate].
    injection H as <-. lia.
  - reflexivity.
Qed.

(* ===================================================================== *)
(** ** With the database: frame lemmas *)
(* ===================================================================== *)

Lemma flush_accepted db t :
  Db.flush_error db t = None ->
  NoDup (stripe_event_id <$> webhook_events t) /\ Db.violates db t = None.
Proof.
  unfold Db.flush_error, Db.event_ids. case_bool_decide as Hnd; [|discriminate].
  destruct (Db.violates db t); [discriminate|]. now split.
Qed.

Lemma flush_error_is_db_error db t e :
  Db.flush_error db t = Some e -> is_db_error e = true.
Proof.
  unfold Db.flush_error. case_bool_decide.
  - destruct (Db.violates db t); [|discriminate]. now intros [= <-].
  - now intros [= <-].
Qed.

Lemma keeps_rows_ret {A} (a : A) : keeps_rows (Db.ret a).
Proof.
  intros st. cbn. split; [reflexivity|]. split; [now left|].
  split; [exists []; now rewrite app_nil_r | reflexivity].
Qed.

Lemma keeps_rows_raise {A} (e : exn) : keeps_rows (@Db.raise A e).
Proof.
  intros st. cbn. split; [reflexivity|]. split; [now left|].
  split; [exists []; now rewrite app_nil_r | discriminate].
Qed.

Lemma keeps_rows_commit db : keeps_rows (Db.commit db).
Proof.
  intros st. unfold Db.commit. destruct (Db.failed st) eqn:Hf; cbn.
  - split; [reflexivity|]. split; [now left|].
    split; [exists []; now rewrite app_nil_r | discriminate].
  - destruct (Db.flush_error db (session (Db.world st))) as [e|] eqn:He; cbn.
    + split; [reflexivity|]. split; [now left|].
      split; [exists []; now rewrite app_nil_r | discriminate].
    + split; [reflexivity|]. split.
      { right. split; [reflexivity|]. now apply flush_accepted in He. }
      split; [|reflexivity].
      exists [Committed (session (Db.world st))]. split; [reflexivity|].
      constructor; [|constructor]. now exists (session (Db.world st)).
Qed.

Lemma keeps_rows_query db c : keeps_rows (Db.query_first db c).
Proof.
  intros st. unfold Db.query_first. destruct (Db.failed st) eqn:Hfail; cbn;
    (split; [reflexivity|]; split; [now left|];
     split; [exists []; now rewrite app_nil_r | try discriminate]).
  intros a _. exact Hfail.
Qed.

Lemma keeps_rows_on_users f : keeps_rows (Db.on_users f).
Proof.
  intros st. unfold Db.on_users.
  destruct (f (users (session (Db.world st)))) as [us [e|]]; cbn;
    (split; [reflexivity|]; split; [now left|];
     split; [exists []; now rewrite app_nil_r | try discriminate; reflexivity]).
Qed.

Lemma keeps_rows_update_user i f : keeps_rows (Db.lift (update_user i f)).
Proof.
  intros st. cbn. split; [reflexivity|]. split; [now left|].
  split; [exists []; now rewrite app_nil_r | reflexivity].
Qed.

Lemma keeps_rows_bind {A B} (m : Db.D A) (k : A -> Db.D B) :
  keeps_rows m -> (forall a, keeps_rows (k a)) -> keeps_rows (Db.bind m k).
Proof.
  intros Hm Hk st. unfold Db.bind.
  destruct (Hm st) as (He & Hs & (ex1 & Hj1 & Hf1) & Hok).
  destruct (m st) as [[a|e] st1]; cbn [fst snd] in *.
  - destruct (Hk a st1) as (He2 & Hs2 & (ex2 & Hj2 & Hf2) & Hok2).
    rewrite He in *. split; [exact He2|]. split.
    { destruct Hs2 as [Hs2|Hs2]; [|now right].
      rewrite Hs2. exact Hs. }
    split.
    + exists (ex1 ++ ex2). split; [now rewrite Hj2, Hj1, app_assoc|].
      apply Forall_app. now split.
    + intros b Hb. rewrite (Hok2 b Hb). now apply (Hok a).
  - split; [exact He|]. split; [exact Hs|]. split; [now exists ex1 | discriminate].
Qed.

#[local] Hint Resolve keeps_rows_ret keeps_rows_raise keeps_rows_commit
  keeps_rows_query keeps_rows_on_users keeps_rows_update_user : keeps.

Ltac keeps_rows :=
  repeat first
    [ apply keeps_rows_bind; [|intros ?]
    | progress auto with keeps
    | match goal with
      | |- keeps_rows (match ?x with _ => _ end) => destruct x
      | |- keeps_rows (if ?x then _ else _) => destruct x
      end ].

Lemma keeps_rows_default db stripe self ty d :
  keeps_rows
    (if String.eqb ty "checkout.session.completed" then
       Db._handle_checkout_completed db stripe self d
     else if String.eqb ty "customer.subscription.created" then
       Db._handle_subscription_created db self d
     else if String.eqb ty "customer.subscription.updated" then
       Db._handle_subscription_updated db self d
     else if String.eqb ty "customer.subscription.deleted" then
       Db._handle_subscription_deleted db self d
     else if String.eqb ty "invoice.payment_succeeded" then
       Db._handle_invoice_paid self d
     else if String.eqb ty "invoice.payment_failed" then
       Db._handle_invoice_failed self d
     else Db.ret tt).
Proof.
  unfold Db._handle_checkout_completed, Db._handle_subscription_created,
    Db._handle_subscription_updated, Db._handle_subscription_deleted,
    Db._handle_invoice_paid, Db._handle_invoice_failed,
    Db.call_update_user_subscription.
  keeps_rows.
Qed.

(** Whatever is dispatched, with the database: one handler call is
    journalled, of the custom handler exactly when one is registered; the
    rest is as [keeps_rows] says. *)
Lemma Db_dispatch_frame db stripe self ty d st :
  events (Db.world (snd (Db.dispatch db stripe self ty d st))) = events (Db.world st) /\
  (webhook_events (stored (Db.world (snd (Db.dispatch db stripe self ty d st))))
     = webhook_events (stored (Db.world st)) \/
   webhook_events (stored (Db.world (snd (Db.dispatch db stripe self ty d st))))
     = events (Db.world st) /\
   NoDup (stripe_event_id <$> events (Db.world st))) /\
  (exists extra,
     journal (Db.world (snd (Db.dispatch db stripe self ty d st)))
       = journal (Db.world st)
           ++ Called (bool_decide (is_Some (event_handlers self !! ty))) ty :: extra /\
     Forall (commit_of (events (Db.world st))) extra) /\
  (forall a, fst (Db.dispatch db stripe self ty d st) = Ok a ->
             Db.failed (snd (Db.dispatch db stripe self ty d st)) = Db.failed st).
Proof.
  unfold Db.dispatch. destruct (event_handlers self !! ty) as [h|].
  - unfold Db.call_custom, Db.bind, Db.lift, log. cbn.
    match goal with |- context [Db.on_users ?f ?s] =>
      destruct (keeps_rows_on_users f s) as (He & Hs & (extra & Hj & Hf) & Hok)
    end.
    split; [exact He|]. split; [exact Hs|]. split; [|exact Hok].
    exists extra. split; [|exact Hf]. rewrite Hj. cbn. now rewrite <- app_assoc.
  - unfold Db._handle_default_event, Db.bind, Db.lift, log. cbn.
    match goal with |- context [?m {| Db.world := ?w; Db.failed := ?f |}] =>
      destruct (keeps_rows_default db stripe self ty d {| Db.world := w; Db.failed := f |})
        as (He & Hs & (extra & Hj & Hf) & Hok)
    end.
    split; [exact He|]. split; [exact Hs|]. split; [|exact Hok].
    exists extra. split; [|exact Hf]. rewrite Hj. cbn. now rewrite <- app_assoc.
Qed.

(** [Db.process_event]: the commit of the row, then the handling. *)
Lemma Db_process_event_eq db stripe self ev t1 t2 st :
  Db.process_event db stripe self ev t1 t2 st =
  match Db.commit db (received ev t1 st) with
  | (Ok _, st1) => handled db stripe self ev (length (events (Db.world st))) t2 st1
  | (Raise e, st') => (Raise e, st')
  end.
Proof.
  unfold Db.process_event, handled, received, received_row, Db.bind, Db.lift. cbn.
  match goal with |- context [Db.commit db ?s] => destruct (Db.commit db s) as [[[]|e] st1] end;
    reflexivity.
Qed.

Lemma commit_failed db st :
  Db.failed st = true ->
  Db.commit db st = (Raise (PendingRollbackError (Db.rollback_required db)), st).
Proof. unfold Db.commit. now intros ->. Qed.

Lemma commit_refused db st e :
  Db.failed st = false ->
  Db.flush_error db (session (Db.world st)) = Some e ->
  Db.commit db st = (Raise e, {| Db.world := Db.world st; Db.failed := true |}).
Proof. unfold Db.commit. now intros -> ->. Qed.

Lemma commit_accepted db st :
  Db.failed st = false ->
  Db.flush_error db (session (Db.world st)) = None ->
  Db.commit db st = (Ok tt, committed st).
Proof. unfold Db.commit. now intros -> ->. Qed.

Lemma mark_processed_eq db k t st :
  Db.mark_processed db k t st =
  match Db.commit db (assigned (marked_processed k t (session (Db.world st))) st) with
  | (Ok _, st') => (Ok true, st')
  | (Raise e, st') => (Raise e, st')
  end.
Proof.
  unfold Db.mark_processed, Db.bind, Db.lift, update_event. cbn.
  match goal with |- context [Db.commit db ?s] =>
    change s with (assigned (marked_processed k t (session (Db.world st))) st);
    destruct (Db.commit db (assigned (marked_processed k t (session (Db.world st))) st))
      as [[[]|e] st']
  end; reflexivity.
Qed.

Lemma mark_failed_eq db k e st :
  Db.mark_failed db k e st =
  match Db.commit db (assigned (marked_failed k e (session (Db.world st))) st) with
  | (Ok _, st') => (Ok false, st')
  | (Raise e', st') => (Raise e', st')
  end.
Proof.
  unfold Db.mark_failed, Db.bind, Db.lift, update_event. cbn.
  match goal with |- context [Db.commit db ?s] =>
    change s with (assigned (marked_failed k e (session (Db.world st))) st);
    destruct (Db.commit db (assigned (marked_failed k e (session (Db.world st))) st))
      as [[[]|e'] st']
  end; reflexivity.
Qed.

Lemma marked_processed_rows evs row t2 t :
  webhook_events t = evs ++ [row] ->
  webhook_events (marked_processed (length evs) t2 t)
    = evs ++ [set_processed_at t2 (set_processed true row)].
Proof. intros H. cbn. now rewrite H, !alter_snoc. Qed.

Lemma marked_failed_rows evs row e t :
  webhook_events t = evs ++ [row] ->
  webhook_events (marked_failed (length evs) e t) = evs ++ [set_error (str e) row].
Proof. intros H. cbn. now rewrite H, alter_snoc. Qed.

(** The four ways the handling of a committed row ends: the handler
    returned and the commit was accepted; the handler returned and the
    commit was refused; the handler raised and the error was committed; the
    handler raised and the commit of the error was refused. *)
Lemma handled_cases db stripe self ev t2 st1 evs row :
  Db.failed st1 = false ->
  events (Db.world st1) = evs ++ [row] ->
  webhook_events (stored (Db.world st1)) = evs ++ [row] ->
  exists r2 st2 extra,
    Db.dispatch db stripe self (ev_type ev) (ev_object ev) st1 = (r2, st2) /\
    journal (Db.world st2)
      = journal (Db.world st1)
          ++ Called (bool_decide (is_Some (event_handlers self !! ev_type ev)))
                    (ev_type ev) :: extra /\
    Forall (commit_of (evs ++ [row])) extra /\
    let res := handled db stripe self ev (length evs) t2 st1 in
    let st' := snd res in
    ((exists u, r2 = Ok u) /\
     Db.flush_error db (marked_processed (length evs) t2 (session (Db.world st2))) = None /\
     fst res = Ok true /\
     Db.failed st' = false /\
     session (Db.world st') = marked_processed (length evs) t2 (session (Db.world st2)) /\
     stored (Db.world st') = session (Db.world st') /\
     events (Db.world st') = evs ++ [set_processed_at t2 (set_processed true row)] /\
     journal (Db.world st') = journal (Db.world st2) ++ [Committed (session (Db.world st'))])
    \/
    ((exists u, r2 = Ok u) /\
     (exists e,
        Db.flush_error db (marked_processed (length evs) t2 (session (Db.world st2)))
          = Some e /\
        events (Db.world st')
          = evs ++ [set_error (str e) (set_processed_at t2 (set_processed true row))]) /\
     fst res = Raise (PendingRollbackError (Db.rollback_required db)) /\
     Db.failed st' = true /\
     stored (Db.world st') = stored (Db.world st2) /\
     webhook_events (stored (Db.world st')) = evs ++ [row] /\
     journal (Db.world st') = journal (Db.world st2))
    \/
    (exists e,
       r2 = Raise e /\
       Db.failed st2 = false /\
       Db.flush_error db (marked_failed (length evs) e (session (Db.world st2))) = None /\
       fst res = Ok false /\
       Db.failed st' = false /\
       session (Db.world st') = marked_failed (length evs) e (session (Db.world st2)) /\
       stored (Db.world st') = session (Db.world st') /\
       events (Db.world st') = evs ++ [set_error (str e) row] /\
       journal (Db.world st') = journal (Db.world st2) ++ [Committed (session (Db.world st'))])
    \/
    (exists e e',
       r2 = Raise e /\
       (Db.failed st2 = true \/
        Db.flush_error db (marked_failed (length evs) e (session (Db.world st2)))
          = Some e') /\
       fst res = Raise e' /\ is_db_error e' = true /\
       Db.failed st' = true /\
       events (Db.world st') = evs ++ [set_error (str e) row] /\
       stored (Db.world st') = stored (Db.world st2) /\
       webhook_events (stored (Db.world st')) = evs ++ [row] /\
       journal (Db.world st') = journal (Db.world st2)).
Proof.
  intros Hfail Hev Hst.
  destruct (Db_dispatch_frame db stripe self (ev_type ev) (ev_object ev) st1)
    as (He & Hs & (extra & Hj & Hf) & Hok).
  destruct (Db.dispatch db stripe self (ev_type ev) (ev_object ev) st1)
    as [r2 st2] eqn:Hd.
  cbn [fst snd] in *. rewrite Hev in *.
  assert (Hs2 : webhook_events (stored (Db.world st2)) = evs ++ [row]).
  { destruct Hs as [Hs|[Hs _]]; congruence. }
  exists r2, st2, extra. split; [reflexivity|]. split; [exact Hj|]. split; [exact Hf|].
  unfold events in He.
  unfold handled, Db.try_except, Db.bind. rewrite Hd. cbn zeta.
  destruct r2 as [[]|e].
  - (* the handler returned *)
    assert (Hf2 : Db.failed st2 = false) by (rewrite (Hok tt eq_refl); exact Hfail).
    rewrite mark_processed_eq.
    destruct (Db.flush_error db (marked_processed (length evs) t2 (session (Db.world st2))))
      as [e|] eqn:Hflush.
    + rewrite (commit_refused db _ e) by (try exact Hflush; exact Hf2).
      rewrite mark_failed_eq, commit_failed by reflexivity.
      right. left. split; [now exists tt|]. split.
      { exists e. split; [reflexivity|]. cbn [fst snd]. unfold events.
        cbn [Db.world assigned session].
        apply marked_failed_rows. now apply marked_processed_rows. }
      repeat split; assumption.
    + rewrite commit_accepted by (try exact Hflush; exact Hf2).
      left. split; [now exists tt|]. split; [reflexivity|].
      repeat split. cbn. now rewrite He, !alter_snoc.
  - (* the handler raised *)
    rewrite mark_failed_eq.
    destruct (Db.failed st2) eqn:Hf2.
    + rewrite commit_failed by exact Hf2.
      right. right. right. exists e, (PendingRollbackError (Db.rollback_required db)).
      split; [reflexivity|]. split; [now left|].
      repeat split; try assumption.
      cbn [fst snd]. unfold events. cbn [Db.world assigned session].
      now apply marked_failed_rows.
    + destruct (Db.flush_error db (marked_failed (length evs) e (session (Db.world st2))))
        as [e'|] eqn:Hflush.
      * rewrite (commit_refused db _ e') by (try exact Hflush; exact Hf2).
        right. right. right. exists e, e'.
        split; [reflexivity|]. split; [now right|].
        split; [reflexivity|]. split; [now apply flush_error_is_db_error in Hflush|].
        repeat split; try assumption.
        cbn [fst snd]. unfold events. cbn [Db.world assigned session].
        now apply marked_failed_rows.
      * rewrite commit_accepted by (try exact Hflush; exact Hf2).
        right. right. left. exists e.
        repeat split; try assumption. cbn. now rewrite He, alter_snoc.
Qed.

Lemma commit_received_accepted db ev t1 st :
  Db.failed st = false ->
  Db.flush_error db (session (Db.world (received ev t1 st))) = None ->
  Db.commit db (received ev t1 st) = (Ok tt, committed (received ev t1 st)) /\
  Db.world (committed (received ev t1 st)) = after_receipt ev t1 (Db.world st).
Proof.
  intros Hf He. split; [|reflexivity]. now apply commit_accepted.
Qed.

Lemma same_receipt_marked ev t1 t2 e :
  same_receipt (received_row ev t1) (received_row ev t1) /\
  same_receipt (set_processed_at t2 (set_processed true (received_row ev t1)))
               (received_row ev t1) /\
  same_receipt (set_error (str e) (received_row ev t1)) (received_row ev t1).
Proof. repeat split. Qed.

(* ===================================================================== *)
(** ** With the database: persistence before dispatch *)
(* ===================================================================== *)

(** C4: [process_event] first adds the event's row, with the gateway event
    id, type, payload and received timestamp and with [processed] false,
    and commits it.  If that commit raises, [process_event] raises with it:
    nothing is stored, nothing is journalled, no handler runs.  If it is
    accepted, the row is in the stored table, and only then, from that
    state, the handler (custom or default) runs; the commit is the first
    journal entry and every handler call comes after it; and whatever the
    handler does, the row stays stored with its four fields of receipt. *)
Theorem row_stored_before_dispatch (db : Db.Database) (stripe : Stripe)
    (self : WebhookManager) (ev : Event) (t1 t2 : datetime) (st : Db.State) :
  let k := length (events (Db.world st)) in
  let res := Db.process_event db stripe self ev t1 t2 st in
  stripe_event_id (received_row ev t1) = ev_id ev /\
  event_type (received_row ev t1) = ev_type ev /\
  data (received_row ev t1) = ev_object ev /\
  received_at (received_row ev t1) = Some t1 /\
  processed (received_row ev t1) = Some false /\
  match Db.commit db (received ev t1 st) with
  | (Raise e, st') =>
      res = (Raise e, st') /\
      stored (Db.world (snd res)) = stored (Db.world st) /\
      journal (Db.world (snd res)) = journal (Db.world st)
  | (Ok _, st1) =>
      stored (Db.world st1) = session (Db.world st1) /\
      webhook_events (stored (Db.world st1))
        = events (Db.world st) ++ [received_row ev t1] /\
      res = handled db stripe self ev k t2 st1 /\
      (exists rest,
         new_entries (Db.world st) (Db.world (snd res))
           = Committed (stored (Db.world st1)) :: rest) /\
      (forall pre custom ty post,
         new_entries (Db.world st) (Db.world (snd res))
           = pre ++ Called custom ty :: post ->
         In (Committed (stored (Db.world st1))) pre) /\
      exists row,
        webhook_events (stored (Db.world (snd res))) !! k = Some row /\
        same_receipt row (received_row ev t1)
  end.
Proof.
  cbn zeta. repeat (split; [reflexivity|]).
  rewrite Db_process_event_eq.
  destruct (Db.failed st) eqn:Hfail.
  { rewrite commit_failed by exact Hfail. repeat split. }
  destruct (Db.flush_error db (session (Db.world (received ev t1 st)))) as [e|] eqn:Hflush.
  { rewrite (commit_refused db _ e) by (try exact Hflush; exact Hfail). repeat split. }
  destruct (commit_received_accepted db ev t1 st Hfail Hflush) as (-> & Hw).
  split; [reflexivity|]. split; [reflexivity|]. split; [reflexivity|].
  destruct (handled_cases db stripe self ev t2 (committed (received ev t1 st))
              (events (Db.world st)) (received_row ev t1) eq_refl eq_refl eq_refl)
    as (r2 & st2 & extra & _ & Hj & _ & Hcases).
  cbn zeta in Hcases.
  set (res := handled db stripe self ev (length (events (Db.world st))) t2
                (committed (received ev t1 st))) in *.
  destruct (same_receipt_marked ev t1 t2 (Exception "")) as (Hr0 & Hr1 & _).
  assert (Hsum :
    (exists tail, journal (Db.world (snd res)) = journal (Db.world st2) ++ tail) /\
    exists row, webhook_events (stored (Db.world (snd res)))
                = events (Db.world st) ++ [row] /\
                same_receipt row (received_row ev t1)).
  { destruct Hcases as [C|[C|[C|C]]].
    - destruct C as (_ & _ & _ & _ & _ & Hst & Hev & Hjf).
      split; [eexists; exact Hjf|]. eexists. split; [|exact Hr1].
      rewrite Hst. exact Hev.
    - destruct C as (_ & _ & _ & _ & _ & Hst & Hjf).
      split; [exists []; now rewrite app_nil_r|]. eexists. split; [exact Hst | exact Hr0].
    - destruct C as (e & _ & _ & _ & _ & _ & _ & Hst & Hev & Hjf).
      split; [eexists; exact Hjf|]. eexists. split.
      + rewrite Hst. exact Hev.
      + apply (same_receipt_marked ev t1 t2 e).
    - destruct C as (e & e' & _ & _ & _ & _ & _ & _ & _ & Hst & Hjf).
      split; [exists []; now rewrite app_nil_r|]. eexists. split; [exact Hst | exact Hr0]. }
  destruct Hsum as ((tail & Hjt) & row & Hrow & Hsame).
  assert (Hnew : new_entries (Db.world st) (Db.world (snd res))
                 = Committed (stored (Db.world (committed (received ev t1 st))))
                     :: Called (bool_decide (is_Some (event_handlers self !! ev_type ev)))
                          (ev_type ev) :: extra ++ tail).
  { apply new_entries_app. rewrite Hjt, Hj. cbn. rewrite <- !app_assoc. reflexivity. }
  split; [eexists; exact Hnew|]. split.
  - intros pre custom ty post Heq. rewrite Hnew in Heq.
    destruct pre as [|a pre]; cbn in Heq; [discriminate|].
    injection Heq as <- _. now left.
  - exists row. split; [|exact Hsame]. rewrite Hrow.
    now apply list_lookup_middle.
Qed.

(* ===================================================================== *)
(** ** With the database: redelivery *)
(* ===================================================================== *)

Lemma received_events ev t1 st :
  session (Db.world (received ev t1 st))
  = {| users := users (session (Db.world st));
       webhook_events := events (Db.world st) ++ [received_row ev t1] |}.
Proof. reflexivity. Qed.

(** The stored row of a handled event has the id it was received with. *)
Lemma handled_stored_ids db stripe self ev t1 t2 st :
  Db.failed st = false ->
  Db.flush_error db (session (Db.world (received ev t1 st))) = None ->
  stripe_event_id <$> webhook_events
    (stored (Db.world (snd (handled db stripe self ev (length (events (Db.world st))) t2
                              (committed (received ev t1 st))))))
  = stripe_event_id <$> (events (Db.world st) ++ [received_row ev t1]).
Proof.
  intros Hfail Hflush.
  destruct (handled_cases db stripe self ev t2 (committed (received ev t1 st))
              (events (Db.world st)) (received_row ev t1) eq_refl eq_refl eq_refl)
    as (r2 & st2 & extra & _ & _ & _ & Hcases).
  cbn zeta in Hcases.
  destruct Hcases as [C|[C|[C|C]]].
  - destruct C as (_ & _ & _ & _ & _ & Hst & Hev & _).
    rewrite Hst. unfold events in *. rewrite Hev, !fmap_app. reflexivity.
  - destruct C as (_ & _ & _ & _ & _ & Hst & _). now rewrite Hst.
  - destruct C as (e & _ & _ & _ & _ & _ & _ & Hst & Hev & _).
    rewrite Hst. unfold events in *. rewrite Hev, !fmap_app. reflexivity.
  - destruct C as (e & e' & _ & _ & _ & _ & _ & _ & _ & Hst & _). now rewrite Hst.
Qed.

(** No delivery stores a second row with a gateway event id. *)
Lemma unique_ids_preserved db stripe self ev t1 t2 st :
  NoDup (stripe_event_id <$> webhook_events (stored (Db.world st))) ->
  NoDup (stripe_event_id <$> webhook_events
           (stored (Db.world (snd (Db.process_event db stripe self ev t1 t2 st))))).
Proof.
  intros Hnd. rewrite Db_process_event_eq.
  destruct (Db.failed st) eqn:Hfail.
  { now rewrite commit_failed by exact Hfail. }
  destruct (Db.flush_error db (session (Db.world (received ev t1 st)))) as [e|] eqn:Hflush.
  { now rewrite (commit_refused db _ e) by (try exact Hflush; exact Hfail). }
  rewrite commit_accepted by (try exact Hflush; exact Hfail).
  rewrite (handled_stored_ids db stripe self ev t1 t2 st Hfail Hflush).
  now apply flush_accepted in Hflush.
Qed.

Lemma known_id_refused db ev t1 st :
  ev_id ev ∈ stripe_event_id <$> events (Db.world st) ->
  Db.flush_error db (session (Db.world (received ev t1 st)))
  = Some (IntegrityError (Db.unique_violation db)).
Proof.
  intros Hin. unfold Db.flush_error, Db.event_ids. rewrite received_events. cbn.
  case_bool_decide as Hnd; [|reflexivity].
  rewrite fmap_app in Hnd. apply NoDup_app in Hnd. destruct Hnd as (_ & Hdisj & _).
  exfalso. apply (Hdisj _ Hin). cbn. apply list_elem_of_singleton. reflexivity.
Qed.

(** C1: the gateway event id is unique in the stored table, and no
    delivery changes that.  When an event whose id is already recorded is
    delivered again, the commit of the second row is refused:
    [process_event] raises the database's error before any handler is
    called, so no duplicate row is created, the subscription effect is not
    applied again, and the stored tables are those after the first
    delivery. *)
Theorem redelivery_is_refused (db : Db.Database) (stripe : Stripe)
    (self : WebhookManager) (ev : Event) (t1 t2 : datetime) (st : Db.State) :
  NoDup (stripe_event_id <$> webhook_events (stored (Db.world st))) ->
  ev_id ev ∈ stripe_event_id <$> webhook_events (stored (Db.world st)) ->
  session (Db.world st) = stored (Db.world st) ->
  let res := Db.process_event db stripe self ev t1 t2 st in
  (exists e, fst res = Raise e /\ is_db_error e = true) /\
  stored (Db.world (snd res)) = stored (Db.world st) /\
  journal (Db.world (snd res)) = journal (Db.world st) /\
  NoDup (stripe_event_id <$> webhook_events (stored (Db.world (snd res)))) /\
  (forall ev' ta tb st',
     NoDup (stripe_event_id <$> webhook_events (stored (Db.world st'))) ->
     NoDup (stripe_event_id <$> webhook_events
              (stored (Db.world (snd (Db.process_event db stripe self ev' ta tb st')))))).
Proof.
  intros Hnd Hin Hfresh. cbn zeta.
  assert (Hres :
    (exists e, fst (Db.process_event db stripe self ev t1 t2 st) = Raise e /\
               is_db_error e = true) /\
    stored (Db.world (snd (Db.process_event db stripe self ev t1 t2 st)))
      = stored (Db.world st) /\
    journal (Db.world (snd (Db.process_event db stripe self ev t1 t2 st)))
      = journal (Db.world st)).
  { rewrite Db_process_event_eq.
    destruct (Db.failed st) eqn:Hfail.
    - rewrite commit_failed by exact Hfail. repeat split. eexists. now split.
    - rewrite (commit_refused db _ (IntegrityError (Db.unique_violation db)));
        [| exact Hfail | apply known_id_refused; unfold events; now rewrite Hfresh].
      repeat split. eexists. now split. }
  destruct Hres as (Hraise & Hst & Hj).
  split; [exact Hraise|]. split; [exact Hst|]. split; [exact Hj|].
  split; [now rewrite Hst|].
  intros ev' ta tb st'. apply unique_ids_preserved.
Qed.

Lemma redelivery_is_refused_witness :
  fst (Db.process_event plain_db sample_stripe sample_manager deleted_event
         200%Z 201%Z delivered_state)
    = Raise (IntegrityError (Db.unique_violation plain_db)) /\
  stored (Db.world (snd (Db.process_event plain_db sample_stripe sample_manager
                           deleted_event 200%Z 201%Z delivered_state)))
    = stored (Db.world delivered_state) /\
  stripe_event_id <$> webhook_events (stored (Db.world delivered_state)) = ["evt_1"].
Proof.
  assert (Hids : stripe_event_id <$> webhook_events (stored (Db.world delivered_state))
                 = ["evt_1"]) by reflexivity.
  destruct (redelivery_is_refused plain_db sample_stripe sample_manager deleted_event
              200%Z 201%Z delivered_state)
    as (_ & Hst & _).
  - rewrite Hids. apply NoDup_singleton.
  - rewrite Hids. apply list_elem_of_singleton. reflexivity.
  - reflexivity.
  - split; [reflexivity|]. split; [exact Hst | exact Hids].
Defined.

(* ===================================================================== *)
(** ** With the database: exceptions of handlers and of commits *)
(* ===================================================================== *)

(** What the [except] clause achieves: when the handler raises, leaves the
    session usable, and the database accepts the commit of the error, the
    row is stored with [processed] false and the exception's message, and
    the result is [False]. *)
Lemma handler_exception_recorded_if_committed db stripe self ev t1 t2 st e st2 :
  Db.failed st = false ->
  Db.flush_error db (session (Db.world (received ev t1 st))) = None ->
  Db.dispatch db stripe self (ev_type ev) (ev_object ev) (committed (received ev t1 st))
    = (Raise e, st2) ->
  Db.failed st2 = false ->
  Db.flush_error db (marked_failed (length (events (Db.world st))) e
                       (session (Db.world st2))) = None ->
  fst (Db.process_event db stripe self ev t1 t2 st) = Ok false /\
  webhook_events (stored (Db.world (snd (Db.process_event db stripe self ev t1 t2 st))))
    = events (Db.world st) ++ [failed_row ev t1 e].
Proof.
  intros Hfail Hflush Hd Hf2 Hflush2.
  rewrite Db_process_event_eq, commit_accepted by (try exact Hflush; exact Hfail).
  destruct (handled_cases db stripe self ev t2 (committed (received ev t1 st))
              (events (Db.world st)) (received_row ev t1) eq_refl eq_refl eq_refl)
    as (r2 & st2' & extra & Hd' & _ & _ & Hcases).
  rewrite Hd in Hd'. injection Hd' as <- <-. cbn zeta in Hcases.
  destruct Hcases as [C|[C|[C|C]]].
  - destruct C as ((u & Hu) & _). discriminate.
  - destruct C as ((u & Hu) & _). discriminate.
  - destruct C as (e0 & He0 & _ & _ & Hr & _ & _ & Hst & Hev & _).
    injection He0 as <-. split; [exact Hr|]. rewrite Hst. exact Hev.
  - destruct C as (e0 & e' & He0 & [Hbad|Hbad] & _).
    + congruence.
    + injection He0 as <-. congruence.
Qed.

(** In the stored table no delivery brings about a row that is both
    processed and errored. *)
Lemma no_stored_row_processed_and_failed db stripe self ev t1 t2 st :
  let ok := fun r : WebhookEvent =>
              ~ (processed r = Some true /\ error r <> None) in
  Forall ok (webhook_events (stored (Db.world st))) ->
  session (Db.world st) = stored (Db.world st) ->
  Forall ok (webhook_events
               (stored (Db.world (snd (Db.process_event db stripe self ev t1 t2 st))))).
Proof.
  cbn zeta. intros Hok Hfresh. rewrite Db_process_event_eq.
  destruct (Db.failed st) eqn:Hfail.
  { now rewrite commit_failed by exact Hfail. }
  destruct (Db.flush_error db (session (Db.world (received ev t1 st)))) as [e|] eqn:Hflush.
  { now rewrite (commit_refused db _ e) by (try exact Hflush; exact Hfail). }
  rewrite commit_accepted by (try exact Hflush; exact Hfail).
  destruct (handled_cases db stripe self ev t2 (committed (received ev t1 st))
              (events (Db.world st)) (received_row ev t1) eq_refl eq_refl eq_refl)
    as (r2 & st2 & extra & _ & _ & _ & Hcases).
  cbn zeta in Hcases. unfold events in *. rewrite Hfresh in *.
  assert (Hrow0 : ~ (processed (received_row ev t1) = Some true /\
                     error (received_row ev t1) <> None)).
  { intros [H _]. discriminate. }
  destruct Hcases as [C|[C|[C|C]]].
  - destruct C as (_ & _ & _ & _ & _ & Hst & Hev & _). rewrite Hst, Hev.
    apply Forall_app. split; [exact Hok|]. constructor; [|constructor].
    intros [_ H]. now apply H.
  - destruct C as (_ & _ & _ & _ & _ & Hst & _). rewrite Hst.
    apply Forall_app. split; [exact Hok|]. now constructor.
  - destruct C as (e & _ & _ & _ & _ & _ & _ & Hst & Hev & _). rewrite Hst, Hev.
    apply Forall_app. split; [exact Hok|]. constructor; [|constructor].
    intros [H _]. discriminate.
  - destruct C as (e & e' & _ & _ & _ & _ & _ & _ & _ & Hst & _). rewrite Hst.
    apply Forall_app. split; [exact Hok|]. now constructor.
Qed.

(** C3, where the code misses it: the user table declares
    [stripe_subscription_id] not null, and [evt_1] deletes the subscription
    of a known customer.  The default handler's commit raises an
    [IntegrityError]; the [except] clause sets the error and commits
    without a rollback, so that commit raises in turn: [process_event]
    raises instead of returning [False], and the stored row has no error. *)
Theorem handler_flush_error_is_lost :
  fst (Db.dispatch not_null_db sample_stripe sample_manager
         (ev_type deleted_event) (ev_object deleted_event)
         (committed (received deleted_event 100%Z sample_state)))
    = Raise (IntegrityError "NOT NULL constraint failed: users.stripe_subscription_id") /\
  fst (Db.process_event not_null_db sample_stripe sample_manager deleted_event
         100%Z 101%Z sample_state)
    = Raise (PendingRollbackError (Db.rollback_required not_null_db)) /\
  stored (Db.world (snd (Db.process_event not_null_db sample_stripe sample_manager
                           deleted_event 100%Z 101%Z sample_state)))
    = {| users := [trial_user; active_user];
         webhook_events := [received_row deleted_event 100%Z] |} /\
  processed (received_row deleted_event 100%Z) = Some false /\
  error (received_row deleted_event 100%Z) = None.
Proof. repeat split. Qed.


(* ===================================================================== *)
(** ** The endpoint, on deliveries that are not accepted *)
(* ===================================================================== *)

Lemma process_event_leaves_trace stripe self ev t1 t2 w :
  (length (journal w) < length (journal (snd (process_event stripe self ev t1 t2 w))))%nat /\
  (length (events w) < length (events (snd (process_event stripe self ev t1 t2 w))))%nat.
Proof.
  destruct (process_event_result stripe self ev t1 t2 w)
    as (r2 & w2 & extra & _ & _ & Hrows & _ & _ & Hj & _).
  rewrite Hj, Hrows, !length_app. cbn. lia.
Qed.

(** C9, as the code has it: with a webhook secret configured, a delivery
    that [construct_event] does not accept is never processed and creates
    no row, for the endpoint leaves the world as it was whereas
    [process_event] always adds a row.  When [construct_event] raises
    [ValueError] or [SignatureVerificationError], [verify_webhook] yields
    [None] and the endpoint answers 400; when it returns an empty object
    the endpoint answers 400 as well; when it raises any other exception,
    [verify_webhook] and the endpoint raise it. *)
Theorem rejected_delivery_is_not_processed (stripe : Stripe) (self : WebhookManager)
    (s : string) (request : Request) (t1 t2 : datetime) (w : World) :
  s <> "" ->
  not_accepted stripe (request_data request) (header_Stripe_Signature request) s ->
  snd (webhook stripe self (Some s) request t1 t2 w) = w /\
  match construct_event stripe (request_data request)
          (header_Stripe_Signature request) s with
  | Raise (ValueError _) | Raise (SignatureVerificationError _) =>
      verify_webhook stripe (request_data request) (header_Stripe_Signature request) s
        = Ok None /\
      fst (webhook stripe self (Some s) request t1 t2 w) = Ok invalid_signature
  | Ok EmptyObject =>
      verify_webhook stripe (request_data request) (header_Stripe_Signature request) s
        = Ok (Some EmptyObject) /\
      fst (webhook stripe self (Some s) request t1 t2 w) = Ok invalid_signature
  | Ok (Envelope _) => False
  | Raise e =>
      verify_webhook stripe (request_data request) (header_Stripe_Signature request) s
        = Raise e /\
      fst (webhook stripe self (Some s) request t1 t2 w) = Raise e
  end /\
  (forall self' ev ta tb wa,
     snd (process_event stripe self' ev ta tb wa) <> wa /\
     (length (events wa)
      < length (events (snd (process_event stripe self' ev ta tb wa))))%nat).
Proof.
  intros Hs Hna.
  assert (Hnonempty : String.eqb s "" = false).
  { destruct (String.eqb s "") eqn:E; [|reflexivity].
    apply String.eqb_eq in E. contradiction. }
  unfold not_accepted in Hna. unfold webhook, verify_webhook. cbn [falsy_str].
  rewrite Hnonempty.
  split; [|split].
  - destruct (construct_event stripe (request_data request)
                (header_Stripe_Signature request) s) as [[|ev]|[]]; try reflexivity.
    now contradiction (Hna ev).
  - destruct (construct_event stripe (request_data request)
                (header_Stripe_Signature request) s) as [[|ev]|[]];
      try (split; reflexivity).
    now contradiction (Hna ev).
  - intros self' ev ta tb wa.
    destruct (process_event_leaves_trace stripe self' ev ta tb wa) as [Hj He].
    split; [|exact He]. intros Heq. rewrite Heq in Hj. lia.
Qed.

Lemma rejected_delivery_is_not_processed_witness :
  snd (webhook sample_stripe sample_manager (Some "whsec_dummy") bad_request
         100%Z 101%Z sample_world) = sample_world /\
  verify_webhook sample_stripe "{not json" (Some "t=1,v1=00") "whsec_dummy" = Ok None /\
  fst (webhook sample_stripe sample_manager (Some "whsec_dummy") bad_request
         100%Z 101%Z sample_world) = Ok invalid_signature.
Proof.
  destruct (rejected_delivery_is_not_processed sample_stripe sample_manager
              "whsec_dummy" bad_request 100%Z 101%Z sample_world)
    as (Hw & (Hv & Hr) & _).
  - discriminate.
  - intros ev. discriminate.
  - split; [exact Hw|]. split; [exact Hv | exact Hr].
Defined.

(** C9 fails as stated: a secret is configured and the payload is
    malformed, a signed JSON list, at which [construct_event] raises an
    exception that [verify_webhook] does not catch.  [verify_webhook] does
    not yield [None] and the endpoint gives no client-error response: both
    raise. *)
Lemma malformed_payload_escapes :
  not_accepted list_payload_stripe (request_data list_request)
    (header_Stripe_Signature list_request) "whsec_dummy" /\
  verify_webhook list_payload_stripe (request_data list_request)
    (header_Stripe_Signature list_request) "whsec_dummy"
    = Raise (Exception "'list' object has no attribute 'get'") /\
  fst (webhook list_payload_stripe sample_manager (Some "whsec_dummy") list_request
         100%Z 101%Z sample_world)
    = Raise (Exception "'list' object has no attribute 'get'") /\
  ~ rejected_with_client_error list_payload_stripe sample_manager (Some "whsec_dummy")
      list_request 100%Z 101%Z sample_world.
Proof.
  split. { intros ev. discriminate. }
  split; [reflexivity|]. split; [reflexivity|].
  intros (resp & H & _). discriminate.
Qed.

(* ===================================================================== *)
(** ** With the database: every delivery *)
(* ===================================================================== *)

Lemma filter_commits evs extra :
  Forall (commit_of evs) extra -> List.filter is_call extra = [].
Proof.
  induction 1 as [|a l (t & -> & _) _ IH]; [reflexivity|]. cbn. exact IH.
Qed.

(** X9: a delivery calls no handler when the commit of its row raises, and
    exactly one when that commit is accepted: the custom handler when one
    is registered for the event's type, [_handle_default_event] otherwise.
    Everything else it journals is a commit. *)
Theorem one_handler_call_once_stored (db : Db.Database) (stripe : Stripe)
    (self : WebhookManager) (ev : Event) (t1 t2 : datetime) (st : Db.State) :
  List.filter is_call
    (new_entries (Db.world st)
       (Db.world (snd (Db.process_event db stripe self ev t1 t2 st))))
  = match fst (Db.commit db (received ev t1 st)) with
    | Ok _ => [Called (bool_decide (is_Some (event_handlers self !! ev_type ev)))
                      (ev_type ev)]
    | Raise _ => []
    end.
Proof.
  rewrite Db_process_event_eq.
  destruct (Db.failed st) eqn:Hfail.
  { rewrite commit_failed by exact Hfail. cbn. unfold new_entries.
    now rewrite drop_all. }
  destruct (Db.flush_error db (session (Db.world (received ev t1 st)))) as [e|] eqn:Hflush.
  { rewrite (commit_refused db _ e) by (try exact Hflush; exact Hfail). cbn.
    unfold new_entries. now rewrite drop_all. }
  rewrite commit_accepted by (try exact Hflush; exact Hfail). cbn [fst].
  destruct (handled_cases db stripe self ev t2 (committed (received ev t1 st))
              (events (Db.world st)) (received_row ev t1) eq_refl eq_refl eq_refl)
    as (r2 & st2 & extra & _ & Hj & Hf & Hcases).
  cbn zeta in Hcases.
  assert (Htail : exists tail,
            journal (Db.world (snd (handled db stripe self ev
                                      (length (events (Db.world st))) t2
                                      (committed (received ev t1 st)))))
            = journal (Db.world st2) ++ tail /\
            List.filter is_call tail = []).
  { destruct Hcases as [C|[C|[C|C]]].
    - destruct C as (_ & _ & _ & _ & _ & _ & _ & Hjf). eexists. split; [exact Hjf|reflexivity].
    - destruct C as (_ & _ & _ & _ & _ & _ & Hjf). exists []. now rewrite app_nil_r.
    - destruct C as (e & _ & _ & _ & _ & _ & _ & _ & _ & Hjf).
      eexists. split; [exact Hjf|reflexivity].
    - destruct C as (e & e' & _ & _ & _ & _ & _ & _ & _ & _ & Hjf).
      exists []. now rewrite app_nil_r. }
  destruct Htail as (tail & Hjt & Hft).
  rewrite (new_entries_app _ _
             (Committed (session (Db.world (received ev t1 st)))
                :: Called (bool_decide (is_Some (event_handlers self !! ev_type ev)))
                     (ev_type ev) :: extra ++ tail)).
  - cbn. now rewrite List.filter_app, (filter_commits _ _ Hf), Hft.
  - rewrite Hjt, Hj. cbn. rewrite <- !app_assoc. reflexivity.
Qed.


(** X12: when a custom handler raises an exception of its own after it
    has changed user rows, and the database accepts the commit of the
    [except] clause, nothing is rolled back: the changes the handler made
    are in the committed tables together with the error, and the result is
    [False]. *)
Theorem handler_changes_committed_with_error (db : Db.Database) (stripe : Stripe)
    (self : WebhookManager) (ev : Event) (t1 t2 : datetime) (st : Db.State)
    (h : Handler) (us : list User) (e : exn) :
  event_handlers self !! ev_type ev = Some h ->
  h (ev_object ev) (users (session (Db.world st))) = (us, Some e) ->
  is_db_error e = false ->
  Db.failed st = false ->
  Db.flush_error db (session (Db.world (received ev t1 st))) = None ->
  Db.flush_error db {| users := us;
                       webhook_events := events (Db.world st) ++ [failed_row ev t1 e] |}
    = None ->
  let res := Db.process_event db stripe self ev t1 t2 st in
  fst res = Ok false /\
  stored (Db.world (snd res))
    = {| users := us; webhook_events := events (Db.world st) ++ [failed_row ev t1 e] |}.
Proof.
  intros Hh Hout Hplain Hfail Hflush Hflush2. cbn zeta.
  rewrite Db_process_event_eq, commit_accepted by (try exact Hflush; exact Hfail).
  assert (Hd : exists st2,
             Db.dispatch db stripe self (ev_type ev) (ev_object ev)
               (committed (received ev t1 st)) = (Raise e, st2) /\
             Db.failed st2 = false /\
             session (Db.world st2)
               = {| users := us;
                    webhook_events := events (Db.world st) ++ [received_row ev t1] |}).
  { unfold Db.dispatch. rewrite Hh.
    unfold Db.call_custom, Db.bind, Db.lift, log, Db.on_users. cbn.
    rewrite Hout. eexists. split; [reflexivity|]. split; [|reflexivity].
    cbn. exact Hplain. }
  destruct Hd as (st2 & Hd & Hf2 & Hs2).
  assert (Hm : marked_failed (length (events (Db.world st))) e (session (Db.world st2))
               = {| users := us;
                    webhook_events := events (Db.world st) ++ [failed_row ev t1 e] |}).
  { rewrite Hs2. unfold marked_failed, with_row. cbn. now rewrite alter_snoc. }
  unfold handled, Db.try_except, Db.bind. rewrite Hd.
  rewrite mark_failed_eq, commit_accepted.
  - split; [reflexivity|]. cbn. exact Hm.
  - exact Hf2.
  - cbn. rewrite Hm. exact Hflush2.
Qed.

Lemma handler_changes_committed_with_error_witness :
  fst (Db.process_event plain_db sample_stripe half_done_manager deleted_event
         100%Z 101%Z sample_state) = Ok false /\
  stored (Db.world (snd (Db.process_event plain_db sample_stripe half_done_manager
                           deleted_event 100%Z 101%Z sample_state)))
    = {| users := [set_canceled trial_user; set_canceled active_user];
         webhook_events := [failed_row deleted_event 100%Z (Exception "mail server down")] |}.
Proof.
  apply (handler_changes_committed_with_error plain_db sample_stripe half_done_manager
           deleted_event 100%Z 101%Z sample_state half_done_handler
           [set_canceled trial_user; set_canceled active_user]
           (Exception "mail server down")); reflexivity.
Defined.

(* ===================================================================== *)
(** ** The two presentations agree *)
(* ===================================================================== *)

Lemma refines_ret db {A} (a : A) : refines db (Db.ret a) (ret a).
Proof. intros w. exists []. split; [now rewrite app_nil_r | reflexivity]. Qed.

Lemma refines_raise db {A} (e : exn) : refines db (@Db.raise A e) (raise e).
Proof. intros w. exists []. split; [now rewrite app_nil_r | reflexivity]. Qed.

Lemma refines_log db a : refines db (Db.lift (log a)) (log a).
Proof. intros w. exists [a]. split; reflexivity. Qed.

Lemma refines_update_user db i f :
  refines db (Db.lift (update_user i f)) (update_user i f).
Proof. intros w. exists []. split; [now rewrite app_nil_r | reflexivity]. Qed.

Lemma refines_update_event db k f :
  refines db (Db.lift (update_event k f)) (update_event k f).
Proof. intros w. exists []. split; [now rewrite app_nil_r | reflexivity]. Qed.

Lemma refines_session_add db row :
  refines db (Db.lift (session_add row)) (session_add row).
Proof. intros w. exists []. split; [now rewrite app_nil_r | reflexivity]. Qed.

Lemma refines_commit db : refines db (Db.commit db) commit.
Proof.
  intros w. exists [Committed (session w)]. split; [reflexivity|].
  intros Hacc _. apply Forall_cons_1 in Hacc. destruct Hacc as [Hacc _].
  cbn in Hacc. now rewrite commit_accepted.
Qed.

Lemma refines_query db c : refines db (Db.query_first db c) (query_first c).
Proof. intros w. exists []. split; [now rewrite app_nil_r | reflexivity]. Qed.

Lemma refines_on_users db f : refines db (Db.on_users f) (on_users f).
Proof.
  intros w. exists []. split.
  - unfold on_users. destruct (f (users (session w))) as [us [e|]]; cbn;
      now rewrite app_nil_r.
  - intros _ Hplain. unfold Db.on_users, on_users in *. cbn in *.
    destruct (f (users (session w))) as [us [e|]]; cbn in *; [|reflexivity].
    now rewrite (Hplain e eq_refl).
Qed.

Lemma refines_bind db {A B} (d : Db.D A) (m : M A) (kd : A -> Db.D B) (km : A -> M B) :
  refines db d m -> (forall a, refines db (kd a) (km a)) ->
  refines db (Db.bind d kd) (bind m km).
Proof.
  intros Hm Hk w. destruct (Hm w) as (ex1 & Hj1 & Himp1).
  unfold bind, Db.bind. destruct (m w) as [[a|e] w1] eqn:Hmw; cbn [fst snd] in *.
  - destruct (Hk a w1) as (ex2 & Hj2 & Himp2).
    exists (ex1 ++ ex2). split; [now rewrite Hj2, Hj1, app_assoc|].
    intros Hacc Hplain. apply Forall_app in Hacc. destruct Hacc as [Hacc1 Hacc2].
    rewrite (Himp1 Hacc1) by discriminate. now apply Himp2.
  - exists ex1. split; [exact Hj1|]. intros Hacc Hplain.
    rewrite (Himp1 Hacc); [reflexivity|].
    intros e0 [= <-]. now apply Hplain.
Qed.

Create HintDb refines.
#[local] Hint Resolve refines_ret refines_raise refines_log refines_update_user
  refines_update_event refines_session_add refines_commit refines_query
  refines_on_users : refines.

Ltac refines :=
  repeat first
    [ apply refines_bind; [|intros ?]
    | progress auto with refines
    | match goal with
      | |- refines _ (match ?x with _ => _ end) (match ?x with _ => _ end) => destruct x
      | |- refines _ (if ?x then _ else _) (if ?x then _ else _) => destruct x
      end ].

Lemma refines_dispatch db stripe self ty d :
  refines db (Db.dispatch db stripe self ty d) (dispatch stripe self ty d).
Proof.
  unfold Db.dispatch, dispatch, Db.call_custom, call_custom,
    Db._handle_default_event, _handle_default_event,
    Db._handle_checkout_completed, _handle_checkout_completed,
    Db._handle_subscription_created, _handle_subscription_created,
    Db._handle_subscription_updated, _handle_subscription_updated,
    Db._handle_subscription_deleted, _handle_subscription_deleted,
    Db._handle_invoice_paid, _handle_invoice_paid,
    Db._handle_invoice_failed, _handle_invoice_failed,
    Db.call_update_user_subscription, call_update_user_subscription.
  refines.
Qed.

(** On a run in which the database accepts every commit and no handler
    raises a database error, [Db.process_event] does what [process_event]
    does, and leaves the session usable. *)
Theorem accepted_run db stripe self ev t1 t2 w :
  (forall t, In (Committed t) (new_entries w (snd (process_event stripe self ev t1 t2 w))) ->
             Db.flush_error db t = None) ->
  (forall e, fst (dispatch stripe self (ev_type ev) (ev_object ev) (after_receipt ev t1 w))
               = Raise e -> is_db_error e = false) ->
  Db.process_event db stripe self ev t1 t2 (usable w)
  = (fst (process_event stripe self ev t1 t2 w),
     usable (snd (process_event stripe self ev t1 t2 w))).
Proof.
  intros Hacc Hplain.
  destruct (refines_dispatch db stripe self (ev_type ev) (ev_object ev)
              (after_receipt ev t1 w)) as (exd & Hjd & Himp).
  pose proof (process_event_eq stripe self ev t1 t2 w) as Heq.
  destruct (dispatch stripe self (ev_type ev) (ev_object ev) (after_receipt ev t1 w))
    as [r2 w2] eqn:Hd.
  cbn [fst snd] in *.
  assert (Hj : journal (snd (process_event stripe self ev t1 t2 w))
               = journal w ++ Committed (session (after_receipt ev t1 w))
                   :: exd ++ [Committed (session (snd (process_event stripe self ev t1 t2 w)))]).
  { rewrite Heq. destruct r2 as [[]|e]; cbn; rewrite Hjd; cbn;
      rewrite <- !app_assoc; reflexivity. }
  apply new_entries_app in Hj. rewrite Hj in Hacc.
  assert (Hrecv : Db.flush_error db (session (after_receipt ev t1 w)) = None).
  { apply Hacc. now left. }
  assert (Hexd : Forall (accepted_action db) exd).
  { apply Forall_forall. intros a Ha. destruct a as [t|]; [|exact I].
    apply Hacc. right. apply in_or_app. left. now apply list_elem_of_In. }
  assert (Hfinal : Db.flush_error db (session (snd (process_event stripe self ev t1 t2 w)))
                   = None).
  { apply Hacc. right. apply in_or_app. right. now left. }
  specialize (Himp Hexd Hplain).
  rewrite Db_process_event_eq, commit_accepted by (try exact Hrecv; reflexivity).
  change (committed (received ev t1 (usable w))) with (usable (after_receipt ev t1 w)).
  unfold handled, Db.try_except, Db.bind. rewrite Himp.
  rewrite Heq in Hfinal |- *.
  destruct r2 as [[]|e]; cbn [fst snd] in *.
  - rewrite mark_processed_eq, commit_accepted; [reflexivity | reflexivity | exact Hfinal].
  - rewrite mark_failed_eq, commit_accepted; [reflexivity | reflexivity | exact Hfinal].
Qed.

Lemma accepted_run_witness :
  Db.process_event plain_db sample_stripe sample_manager deleted_event
    100%Z 101%Z (usable sample_world)
  = (Ok true,
     usable (snd (process_event sample_stripe sample_manager deleted_event
                    100%Z 101%Z sample_world))).
Proof.
  apply (accepted_run plain_db sample_stripe sample_manager deleted_event
           100%Z 101%Z sample_world).
  - intros t Ht. vm_compute in Ht.
    destruct Ht as [[= <-]|[Ht|[[= <-]|[[= <-]|[]]]]];
      [reflexivity | discriminate | reflexivity | reflexivity].
  - intros e H. discriminate.
Defined.
